(** * AutoInsight AI: a shallow embedding of [main.py]

    The program is one Streamlit script.  Its logic is embedded here as
    Rocq functions over Python strings (lists of Unicode code points):
    the model client [llama], the text normaliser [clean], the section
    parser of the "Generate" block, the statistics computed from the
    uploaded table, the revenue-column resolution, the report template and
    the PDF export block.  Effects (network calls, the temporary file) are
    threaded through a state-and-exception monad. *)

From Stdlib Require Import String Ascii DecimalString.
From Stdlib Require Import NArith ZArith Bool Arith Lia List.
Import ListNotations.

(** ** Python strings *)

Module PyStr.

(** A Python [str] is a sequence of code points. *)
Definition str := list N.

(** ASCII literals; the few non-ASCII characters of the source are given
    by their code point. *)
Definition lit (s : string) : str :=
  map N_of_ascii (list_ascii_of_string s).

Definition NL : N := 10.
Definition SPACE : N := 32.
Definition COLON : N := 58.
Definition DASH : N := 45.
Definition STAR : N := 42.
Definition BULLET : N := 8226.
Definition DQUOTE : N := 34.
Definition ENDASH : N := 8211.

Definition is_nl (c : N) : bool := N.eqb c NL.

(** [str.isspace] per code point, which is what [str.strip()] removes. *)
Definition is_space (c : N) : bool :=
  ((9 <=? c) && (c <=? 13) || (28 <=? c) && (c <=? 32) ||
   (c =? 133) || (c =? 160) || (c =? 5760) ||
   (8192 <=? c) && (c <=? 8202) || (c =? 8232) || (c =? 8233) ||
   (c =? 8239) || (c =? 8287) || (c =? 12288))%N.

Definition mem (c : N) (chars : str) : bool := existsb (N.eqb c) chars.

Fixpoint str_eqb (a b : str) : bool :=
  match a, b with
  | [], [] => true
  | x :: a', y :: b' => N.eqb x y && str_eqb a' b'
  | _, _ => false
  end.

Fixpoint lstrip_by (p : N -> bool) (s : str) : str :=
  match s with
  | [] => []
  | c :: t => if p c then lstrip_by p t else s
  end.

Definition rstrip_by (p : N -> bool) (s : str) : str :=
  rev (lstrip_by p (rev s)).

Definition strip_by (p : N -> bool) (s : str) : str :=
  rstrip_by p (lstrip_by p s).

(** [s.strip()] *)
Definition strip (s : str) : str := strip_by is_space s.

(** [s.strip(chars)] *)
Definition strip_chars (chars s : str) : str :=
  strip_by (fun c => mem c chars) s.

(** [s.startswith(prefix)] *)
Fixpoint startswith (s prefix : str) : bool :=
  match prefix, s with
  | [], _ => true
  | p :: prefix', c :: s' => N.eqb c p && startswith s' prefix'
  | _ :: _, [] => false
  end.

(** [s.startswith((p1, p2, ...))] *)
Definition startswith_any (s : str) (prefixes : list str) : bool :=
  existsb (startswith s) prefixes.

(** [s.endswith(suffix)] *)
Definition endswith (s suffix : str) : bool :=
  startswith (rev s) (rev suffix).

(** [s[:-1]] *)
Definition drop_last (s : str) : str := removelast s.

(** [s.split(sep)] for a one-character separator. *)
Fixpoint split (sep : N) (s : str) : list str :=
  match s with
  | [] => [[]]
  | c :: t =>
      if N.eqb c sep then [] :: split sep t
      else match split sep t with
           | w :: ws => (c :: w) :: ws
           | [] => [[c]]
           end
  end.

(** [sep.join(parts)] *)
Fixpoint join (sep : str) (parts : list str) : str :=
  match parts with
  | [] => []
  | [p] => p
  | p :: ps => p ++ sep ++ join sep ps
  end.

(** Substring test, [needle in s]. *)
Fixpoint contains (needle s : str) : bool :=
  startswith s needle ||
  match s with
  | [] => false
  | _ :: t => contains needle t
  end.

(** Length of the run of line breaks at the head of [s]. *)
Fixpoint nl_run (s : str) : nat :=
  match s with
  | c :: t => if is_nl c then S (nl_run t) else 0
  | [] => 0
  end.

(** [re.sub(r"\n{2,}", "\n", s)], as the regex engine scans: at a position
    where the greedy pattern matches (a run of at least two line breaks) it
    emits the replacement and moves past the whole match; elsewhere it
    copies one character.  [skip] counts the characters of the current
    match that are still to be passed over. *)
Fixpoint re_sub_from (skip : nat) (s : str) : str :=
  match s with
  | [] => []
  | c :: t =>
      match skip with
      | S k => re_sub_from k t
      | O =>
          let n := nl_run s in
          if 2 <=? n then NL :: re_sub_from (n - 1) t
          else c :: re_sub_from 0 t
      end
  end.

Definition re_sub_newlines (s : str) : str := re_sub_from 0 s.

(** Does [s] contain two consecutive line breaks? *)
Fixpoint has_blank_run (s : str) : bool :=
  match s with
  | c :: t =>
      (is_nl c && match t with d :: _ => is_nl d | [] => false end)
      || has_blank_run t
  | [] => false
  end.

(** Does the first character of [s] satisfy [p]? *)
Definition first_sat (p : N -> bool) (s : str) : bool :=
  match s with c :: _ => p c | [] => false end.

Definition first_is_space (s : str) : bool := first_sat is_space s.

Definition last_is_space (s : str) : bool := first_sat is_space (rev s).

Definition starts_nl (s : str) : bool := first_sat is_nl s.

End PyStr.
Import PyStr.

(** ** Text normaliser: [clean] *)

(** [def clean(text): return re.sub(r"\n{2,}", "\n", text).strip()] *)
Definition clean (text : str) : str := strip (re_sub_newlines text).


(** ** Exceptions and results *)

Inductive exn :=
| AttributeError | KeyError | IndexError | TypeError
| ConnectionError | JSONDecodeError | OSError | FileNotFoundError
| ChartError.

Inductive result (A : Type) :=
| Ok (a : A)
| Raise (e : exn).
Arguments Ok {A} a.
Arguments Raise {A} e.

Definition rbind {A B} (r : result A) (k : A -> result B) : result B :=
  match r with
  | Ok a => k a
  | Raise e => Raise e
  end.

(** ** Section parser (the loop over [raw.split("\n")]) *)

(** The values of the [sections] dict are strings or lists of strings. *)
Inductive value :=
| VStr (s : str)
| VList (l : list str).

(** A dict with string keys, in insertion order. *)
Definition dict := list (str * value).

Fixpoint getitem (d : dict) (k : str) : option value :=
  match d with
  | [] => None
  | (k', v) :: d' => if str_eqb k k' then Some v else getitem d' k
  end.

Fixpoint setitem (d : dict) (k : str) (v : value) : dict :=
  match d with
  | [] => [(k, v)]
  | (k', v') :: d' =>
      if str_eqb k k' then (k', v) :: d' else (k', v') :: setitem d' k v
  end.

(** [k in d] *)
Definition has_key (d : dict) (k : str) : bool :=
  existsb (fun kv => str_eqb k (fst kv)) d.

Definition OVERVIEW : str := lit "OVERVIEW".
Definition DOMAIN : str := lit "DOMAIN".
Definition ENABLES : str := lit "WHAT THIS DATA ENABLES".
Definition LIMITATIONS : str := lit "LIMITATIONS".
Definition ACTIONS : str := lit "PROFIT IMPROVEMENT ACTIONS".

(** The dict with the five keys of [sections], in the order of the
    source, holding the given values. *)
Definition mk_sections (overview domain : str)
    (enables limits actions : list str) : dict :=
  [ (OVERVIEW, VStr overview); (DOMAIN, VStr domain);
    (ENABLES, VList enables); (LIMITATIONS, VList limits);
    (ACTIONS, VList actions) ].

(** The initial value of [sections]. *)
Definition sections_init : dict := mk_sections [] [] [] [] [].

(** The argument of [line.startswith(("-", "•", "*"))]. *)
Definition bullet_markers : list str := [[DASH]; [BULLET]; [STAR]].

(** The argument of [line.strip("-•* ")]. *)
Definition bullet_chars : str := [DASH; BULLET; STAR; SPACE].

(** Truth value of [current], which is [None] or a string. *)
Definition truthy (current : option str) : bool :=
  match current with
  | None => false
  | Some [] => false
  | Some (_ :: _) => true
  end.

(** The state of the loop: the variable [current] and the dict. *)
Definition pstate := (option str * dict)%type.

(** The header test [line.endswith(":") and line[:-1] in sections]. *)
Definition is_header (sections : dict) (line : str) : bool :=
  endswith line [COLON] && has_key sections (drop_last line).

(** The entry appended for a bullet line:
    [line.strip("-•* ").strip()]. *)
Definition bullet_entry (line : str) : str :=
  strip (strip_chars bullet_chars line).

(** One iteration of the loop body, on the raw line of the split. *)
Definition parse_line (st : pstate) (raw_line : str) : result pstate :=
  let '(current, sections) := st in
  let line := strip raw_line in
  if is_header sections line then Ok (Some (drop_last line), sections)
  else if truthy current then
    match current with
    | None => Ok st
    | Some cur =>
        if startswith_any line bullet_markers then
          (* sections[current].append(...) *)
          match getitem sections cur with
          | None => Raise KeyError
          | Some (VStr _) => Raise AttributeError
          | Some (VList l) =>
              Ok (current, setitem sections cur (VList (l ++ [bullet_entry line])))
          end
        else
          match getitem sections cur with
          | None => Raise KeyError
          | Some (VList _) => Ok st
          | Some (VStr s) =>
              Ok (current, setitem sections cur (VStr (s ++ [SPACE] ++ line)))
          end
    end
  else Ok st.

Fixpoint parse_lines (st : pstate) (lines : list str) : result pstate :=
  match lines with
  | [] => Ok st
  | l :: rest => rbind (parse_line st l) (fun st' => parse_lines st' rest)
  end.

(** Lines 104-124: the dict, [current = None], and the loop. *)
Definition parse (raw : str) : result dict :=
  rbind (parse_lines (None, sections_init) (split NL raw))
        (fun st => Ok (snd st)).

(** What the specification says is appended for a bullet line: the line
    without its marker and without surrounding whitespace. *)
Definition spec_bullet_entry (line : str) : str := strip (tl line).

(** Kinds of input lines, decided as the loop decides them. *)
Definition is_bullet_line (raw_line : str) : bool :=
  startswith_any (strip raw_line) bullet_markers.

Definition is_header_line (raw_line : str) : bool :=
  is_header sections_init (strip raw_line).

Definition is_plain_line (raw_line : str) : bool :=
  negb (is_header_line raw_line) && negb (is_bullet_line raw_line).

Definition no_nl (line : str) : bool := negb (mem NL line).

(** The header line of a label. *)
Definition header (label : str) : str := label ++ [COLON].

(** The value a free-text section accumulates from content lines. *)
Definition free_text (lines : list str) : str :=
  concat (map (fun l => SPACE :: strip l) lines).

(** The entries a list section accumulates from bullet lines. *)
Definition entries (lines : list str) : list str :=
  map (fun l => bullet_entry (strip l)) lines.

(** A response with one block per label, in the order of the prompt. *)
Definition blocks_text (overview domain enables limits actions : list str)
    : str :=
  join [NL]
    (header OVERVIEW :: overview ++ header DOMAIN :: domain ++
     header ENABLES :: enables ++ header LIMITATIONS :: limits ++
     header ACTIONS :: actions).

(** Does [s] begin with one space and no second one? *)
Definition single_leading_space (s : str) : bool :=
  match s with
  | c :: rest =>
      N.eqb c SPACE &&
      match rest with
      | c' :: _ => negb (N.eqb c' SPACE)
      | [] => true
      end
  | [] => false
  end.

(** A free-text value is empty or begins with the separating space. *)
Definition spaced (s : str) : bool :=
  match s with
  | [] => true
  | c :: _ => N.eqb c SPACE
  end.

Definition begins_with_space (s : str) : bool :=
  match s with
  | c :: _ => N.eqb c SPACE
  | [] => false
  end.

(** ** The uploaded table and its statistics *)

Inductive scalar :=
| SInt (z : Z)
| SFloat (mantissa exponent : Z)
| SBool (b : bool)
| SText (s : str).

(** A cell is a value or missing (NaN / None). *)
Definition cell := option scalar.

Inductive dtype := Int64 | Float64 | BoolT | ObjectT.

Record column := { col_name : str; col_dtype : dtype }.

Record DataFrame := {
  df_columns : list column;
  df_rows : list (list cell)
}.

Definition scalar_eqb (a b : scalar) : bool :=
  match a, b with
  | SInt x, SInt y => Z.eqb x y
  | SFloat m e, SFloat m' e' => Z.eqb m m' && Z.eqb e e'
  | SBool x, SBool y => Bool.eqb x y
  | SText x, SText y => str_eqb x y
  | _, _ => false
  end.

(** Missing cells compare equal to each other, as in [duplicated]. *)
Definition cell_eqb (a b : cell) : bool :=
  match a, b with
  | None, None => true
  | Some x, Some y => scalar_eqb x y
  | _, _ => false
  end.

Fixpoint row_eqb (a b : list cell) : bool :=
  match a, b with
  | [], [] => true
  | x :: a', y :: b' => cell_eqb x y && row_eqb a' b'
  | _, _ => false
  end.

(** [df.shape] *)
Definition shape (df : DataFrame) : nat * nat :=
  (length (df_rows df), length (df_columns df)).

Definition is_null (c : cell) : bool :=
  match c with None => true | Some _ => false end.

Definition count_true (l : list bool) : nat := length (filter id l).

(** [df.isnull().sum()]: per column, the number of missing cells. *)
Definition isnull_sum (df : DataFrame) : list nat :=
  map (fun j => count_true (map (fun r => is_null (nth j r None)) (df_rows df)))
      (seq 0 (length (df_columns df))).

(** [int(df.isnull().sum().sum())] *)
Definition missing_count (df : DataFrame) : nat := list_sum (isnull_sum df).

(** [df.duplicated()] with the default [keep="first"]: a row is marked
    when an equal row came before it. *)
Fixpoint duplicated_from (seen rows : list (list cell)) : list bool :=
  match rows with
  | [] => []
  | r :: rest => existsb (row_eqb r) seen :: duplicated_from (r :: seen) rest
  end.

Definition duplicated (df : DataFrame) : list bool :=
  duplicated_from [] (df_rows df).

(** [int(df.duplicated().sum())] *)
Definition dup_count (df : DataFrame) : nat := count_true (duplicated df).

Record Statistics := {
  st_rows : nat; st_cols : nat; st_missing : nat; st_dup : nat
}.

(** Lines 65-67. *)
Definition summarize (df : DataFrame) : Statistics :=
  {| st_rows := fst (shape df); st_cols := snd (shape df);
     st_missing := missing_count df; st_dup := dup_count df |}.

(** The specification's duplicate count: the number of positions whose
    row equals the row at some earlier position. *)
Definition spec_dup_count (rows : list (list cell)) : nat :=
  length (filter
    (fun i => existsb (fun j => row_eqb (nth i rows []) (nth j rows []))
                      (seq 0 i))
    (seq 0 (length rows))).

(** ** Revenue column (line 148) *)

Definition column_names (df : DataFrame) : list str :=
  map col_name (df_columns df).

(** [name in df.columns] *)
Definition in_columns (name : str) (df : DataFrame) : bool :=
  existsb (str_eqb name) (column_names df).

Definition is_number (t : dtype) : bool :=
  match t with Int64 | Float64 => true | BoolT | ObjectT => false end.

(** [df.select_dtypes(include=np.number).columns] *)
Definition numeric_columns (df : DataFrame) : list str :=
  map col_name (filter (fun c => is_number (col_dtype c)) (df_columns df)).

(** [index[-1]] *)
Definition index_last (names : list str) : result str :=
  match rev names with
  | [] => Raise IndexError
  | n :: _ => Ok n
  end.

Definition TOTAL_PRICE : str := lit "total_price".
Definition PIZZA_CATEGORY : str := lit "pizza_category".
Definition PIZZA_SIZE : str := lit "pizza_size".

Definition resolve_revenue_col (df : DataFrame) : result str :=
  if in_columns TOTAL_PRICE df then Ok TOTAL_PRICE
  else index_last (numeric_columns df).

(** ** The world: the model server, the file system, what was observed *)

(** Decoded JSON, as Python values. *)
Unset Elimination Schemes.
Inductive pyval :=
| PNone
| PBool (b : bool)
| PInt (z : Z)
| PFloat (mantissa exponent : Z)
| PStr (s : str)
| PList (l : list pyval)
| PDict (d : list (str * pyval)).
Set Elimination Schemes.

(** What one [requests.post] meets: the call raises, or a response comes
    back whose body decodes as JSON ([Some]) or does not ([None]). *)
Inductive reply :=
| ConnectionFails
| Responds (body : option pyval).

Definition bytes := list Byte.byte.
Definition path := N.

Inductive event :=
| Post (prompt : str)
| Download (data : bytes).

Record world := {
  server : list reply;        (* the replies to the coming requests *)
  files : list (path * bytes);
  trace : list event
}.

(** Computations that read and change the world and may raise; the world
    reached when an exception is raised is kept. *)
Definition M (A : Type) := world -> result A * world.

Definition ret {A} (a : A) : M A := fun w => (Ok a, w).

Definition raise {A} (e : exn) : M A := fun w => (Raise e, w).

Definition bind {A B} (m : M A) (k : A -> M B) : M B :=
  fun w =>
    match m w with
    | (Ok a, w') => k a w'
    | (Raise e, w') => (Raise e, w')
    end.

Definition lift {A} (r : result A) : M A := fun w => (r, w).

(** [try: body / except: handler] with a bare [except]. *)
Definition try_except {A} (body handler : M A) : M A :=
  fun w =>
    match body w with
    | (Ok a, w') => (Ok a, w')
    | (Raise _, w') => handler w'
    end.

Declare Scope py_scope.
Delimit Scope py_scope with py.
Notation "x <- m ;; k" := (bind m (fun x => k))
  (at level 61, m at next level, right associativity) : py_scope.
Notation "m ;; k" := (bind m (fun _ => k))
  (at level 61, right associativity) : py_scope.
Open Scope py_scope.

(** ** Model client: [llama] *)

(** [requests.post(url, json=..., timeout=None)] *)
Definition requests_post (prompt : str) : M (option pyval) :=
  fun w =>
    let w' := {| server := tl (server w); files := files w;
                 trace := trace w ++ [Post prompt] |} in
    match server w with
    | Responds body :: _ => (Ok body, w')
    | ConnectionFails :: _ => (Raise ConnectionError, w')
    | [] => (Raise ConnectionError, w')
    end.

(** [r.json()] *)
Definition response_json (body : option pyval) : result pyval :=
  match body with
  | Some v => Ok v
  | None => Raise JSONDecodeError
  end.

Fixpoint lookup (d : list (str * pyval)) (k : str) : option pyval :=
  match d with
  | [] => None
  | (k', v) :: d' => if str_eqb k k' then Some v else lookup d' k
  end.

(** [v.get(key, default)]: only a dict has the method. *)
Definition py_get (v : pyval) (key : str) (default : pyval) : result pyval :=
  match v with
  | PDict d =>
      Ok (match lookup d key with Some x => x | None => default end)
  | _ => Raise AttributeError
  end.

Definition RESPONSE : str := lit "response".

(** The reply met by the [i]-th coming request; past the end of the list
    the connection fails. *)
Definition reply_at (w : world) (i : nat) : reply :=
  nth i (server w) ConnectionFails.

(** The generated text an attempt returns when it succeeds: the reply is
    a JSON object, and the text is its ["response"] field, or empty text
    when the field is absent. *)
Definition attempt_value (r : reply) : option pyval :=
  match r with
  | Responds (Some (PDict d)) =>
      Some (match lookup d RESPONSE with Some x => x | None => PStr [] end)
  | _ => None
  end.

(** The world after [n] requests carrying [prompt]: each took the next
    reply of the server and left one [Post] in the trace, nothing else. *)
Definition after_posts (prompt : str) (w : world) (n : nat) : world :=
  {| server := skipn n (server w); files := files w;
     trace := trace w ++ repeat (Post prompt) n |}.

Fixpoint llama_loop (range : list nat) (prompt : str) : M pyval :=
  match range with
  | [] => ret (PStr [])
  | _ :: rest =>
      try_except
        (r <- requests_post prompt ;;
         j <- lift (response_json r) ;;
         lift (py_get j RESPONSE (PStr [])))
        (llama_loop rest prompt)
  end.

(** Lines 36-52. *)
Definition llama (prompt : str) : M pyval := llama_loop (seq 0 3) prompt.

(** [clean(x)] on a value that need not be a string. *)
Definition clean_value (v : pyval) : result str :=
  match v with
  | PStr s => Ok (clean s)
  | _ => Raise TypeError
  end.

(** Line 170: the lines of the second answer longer than 20 characters
    once stripped, each without leading and trailing ["-• "]. *)
Definition insights_of (v : pyval) : result (list str) :=
  match v with
  | PStr s =>
      Ok (map (strip_chars [DASH; BULLET; SPACE])
              (filter (fun i => 20 <? length (strip i)) (split NL s)))
  | _ => Raise AttributeError
  end.

(** ** Report template (lines 176-208 and 213-222) *)

(** [str(n)] for a non-negative int. *)
Definition str_of_nat (n : nat) : str :=
  lit (NilZero.string_of_uint (Nat.to_uint n)).

Definition li_items (items : list str) : str :=
  concat (map (fun i => lit "<li>" ++ i ++ lit "</li>") items).

Definition attr (name value : string) : str :=
  lit name ++ lit "=" ++ [DQUOTE] ++ lit value ++ [DQUOTE].

Definition report_head (date overview domain : str)
    (enables limits actions : list str) : str :=
  [NL] ++ lit "<html>" ++ [NL] ++
  lit "<body " ++ attr "style" "font-family:Arial;padding:40px;color:#475569"
    ++ lit ">" ++ [NL] ++
  lit "<h1 " ++ attr "style" "color:#4f46e5" ++ lit ">AutoInsight AI "
    ++ [ENDASH] ++ lit " Professional Business EDA Report</h1>" ++ [NL] ++
  lit "<p><b>Generated:</b> " ++ date ++ lit "</p>" ++ [NL] ++ [NL] ++
  lit "<h2>Dataset Understanding</h2>" ++ [NL] ++
  lit "<p>" ++ overview ++ lit "</p>" ++ [NL] ++ [NL] ++
  lit "<h3>Domain</h3>" ++ [NL] ++
  lit "<p>" ++ domain ++ lit "</p>" ++ [NL] ++ [NL] ++
  lit "<h3>What This Data Enables</h3>" ++ [NL] ++
  lit "<ul>" ++ li_items enables ++ lit "</ul>" ++ [NL] ++ [NL] ++
  lit "<h3>Limitations</h3>" ++ [NL] ++
  lit "<ul>" ++ li_items limits ++ lit "</ul>" ++ [NL] ++ [NL] ++
  lit "<h3>Profit Improvement Actions</h3>" ++ [NL] ++
  lit "<ul>" ++ li_items actions ++ lit "</ul>" ++ [NL] ++ [NL].

(** The data-quality block of the template. *)
Definition data_quality_block (rows cols missing dup : nat) : str :=
  lit "<h2>Data Quality</h2>" ++ [NL] ++
  lit "<p>Rows: " ++ str_of_nat rows ++ lit " | Columns: " ++ str_of_nat cols
    ++ lit "</p>" ++ [NL] ++
  lit "<p>Missing: " ++ str_of_nat missing ++ lit " | Duplicates: "
    ++ str_of_nat dup ++ lit "</p>".

Definition report_tail (charts insights : list str) : str :=
  [NL] ++ [NL] ++
  lit "<h2>Visual Analysis</h2>" ++ [NL] ++
  concat (map (fun c => c ++ lit "<br><br>") charts) ++ [NL] ++ [NL] ++
  lit "<h2>Key Insights</h2>" ++ [NL] ++
  lit "<ul>" ++ li_items insights ++ lit "</ul>" ++ [NL] ++
  lit "</body>" ++ [NL] ++
  lit "</html>".

(** [template.render(...)]: no autoescaping, and the template's final
    line break is dropped. *)
Definition template_render (date overview domain : str)
    (enables limits actions : list str) (rows cols missing dup : nat)
    (charts insights : list str) : str :=
  report_head date overview domain enables limits actions ++
  data_quality_block rows cols missing dup ++
  report_tail charts insights.

(** The sentence the specification expects in the data-quality block. *)
Definition spec_quality_line (rows cols missing dup : nat) : str :=
  lit "Rows: " ++ str_of_nat rows ++ lit " | Columns: " ++ str_of_nat cols ++
  lit " | Missing: " ++ str_of_nat missing ++ lit " | Duplicates: "
    ++ str_of_nat dup.

(** The two paragraphs the template writes. *)
Definition quality_paragraphs (rows cols missing dup : nat) : str :=
  lit "<p>Rows: " ++ str_of_nat rows ++ lit " | Columns: " ++ str_of_nat cols
    ++ lit "</p>" ++ [NL] ++
  lit "<p>Missing: " ++ str_of_nat missing ++ lit " | Duplicates: "
    ++ str_of_nat dup ++ lit "</p>".

(** [sections[k]] read as a string, or as a list. *)
Definition section_str (sections : dict) (k : str) : result str :=
  match getitem sections k with
  | Some (VStr s) => Ok s
  | Some (VList _) => Raise TypeError
  | None => Raise KeyError
  end.

Definition section_list (sections : dict) (k : str) : result (list str) :=
  match getitem sections k with
  | Some (VList l) => Ok l
  | Some (VStr _) => Raise TypeError
  | None => Raise KeyError
  end.

(** ** The "Generate" block with its collaborators *)

(** One run of the PDF engine on a markup: the bytes it wrote to the
    output file (none when it wrote nothing) and whether it exited
    normally. *)
Record engine_run := {
  written : bytes;
  exit_ok : bool
}.

(** [pdfkit] accepts a run that exited normally and left a non-empty
    file. *)
Definition engine_succeeds (r : engine_run) : bool :=
  exit_ok r && match written r with [] => false | _ :: _ => true end.

(** What the script takes from pandas formatting, plotly, the clock and
    the PDF engine. *)
Record externals := {
  understanding_prompt : DataFrame -> str;
  insight_prompt : DataFrame -> str;
  bar_chart : DataFrame -> str -> result str;
  pie_chart : DataFrame -> str -> result str;
  now : str;
  wkhtmltopdf : str -> engine_run
}.

Definition fresh_path (fs : list (path * bytes)) : path :=
  N.succ (fold_right N.max 0%N (map fst fs)).

Definition file_exists (fs : list (path * bytes)) (p : path) : bool :=
  existsb (fun f => N.eqb p (fst f)) fs.

Fixpoint read_file (fs : list (path * bytes)) (p : path) : option bytes :=
  match fs with
  | [] => None
  | (q, d) :: fs' => if N.eqb p q then Some d else read_file fs' p
  end.

Definition write_file (fs : list (path * bytes)) (p : path) (d : bytes) :=
  (p, d) :: filter (fun f => negb (N.eqb p (fst f))) fs.

Definition remove_file (fs : list (path * bytes)) (p : path) :=
  filter (fun f => negb (N.eqb p (fst f))) fs.

Definition set_files (w : world) (fs : list (path * bytes)) : world :=
  {| server := server w; files := fs; trace := trace w |}.

(** [with tempfile.NamedTemporaryFile(delete=False, suffix=".pdf") as f:
    pdf_path = f.name]: a new, empty file that stays on disk. *)
Definition NamedTemporaryFile : M path :=
  fun w =>
    let p := fresh_path (files w) in
    (Ok p, set_files w (write_file (files w) p [])).

(** [with open(pdf_path, "rb") as f] *)
Definition open_rb (p : path) : M bytes :=
  fun w =>
    match read_file (files w) p with
    | Some d => (Ok d, w)
    | None => (Raise FileNotFoundError, w)
    end.

(** [st.download_button(label, f, file_name=...)] *)
Definition download_button (data : bytes) : M unit :=
  fun w =>
    (Ok tt, {| server := server w; files := files w;
               trace := trace w ++ [Download data] |}).

(** [os.remove(pdf_path)] *)
Definition os_remove (p : path) : M unit :=
  fun w =>
    if file_exists (files w) p
    then (Ok tt, set_files w (remove_file (files w) p))
    else (Raise FileNotFoundError, w).

Section Generate.

Variable ext : externals.

(** [pdfkit.from_string(html, pdf_path)]: the engine runs and writes to
    the file; then [pdfkit] raises when the engine reported an error or
    the file is empty. *)
Definition pdfkit_from_string (html : str) (p : path) : M unit :=
  fun w =>
    let r := wkhtmltopdf ext html in
    let w' := set_files w (write_file (files w) p (written r)) in
    if engine_succeeds r then (Ok tt, w') else (Raise OSError, w').

(** Lines 210-229.  [rendered] is the outcome of [template.render(...)],
    which the block evaluates once the temporary file exists. *)
Definition export_block (rendered : result str) : M str :=
  pdf_path <- NamedTemporaryFile ;;
  html <- lift rendered ;;
  pdfkit_from_string html pdf_path ;;
  data <- open_rb pdf_path ;;
  download_button data ;;
  os_remove pdf_path ;;
  ret html.

(** Lines 147-161. *)
Definition build_charts (df : DataFrame) : result (list str) :=
  rbind (resolve_revenue_col df) (fun revenue_col =>
  rbind (if in_columns PIZZA_CATEGORY df
         then rbind (bar_chart ext df revenue_col) (fun c => Ok [c])
         else Ok []) (fun charts1 =>
  rbind (if in_columns PIZZA_SIZE df
         then rbind (pie_chart ext df revenue_col) (fun c => Ok [c])
         else Ok []) (fun charts2 =>
  Ok (charts1 ++ charts2)))).

(** The report markup of lines 213-222, from the parsed sections. *)
Definition render_report (df : DataFrame) (sections : dict)
    (charts insights : list str) : result str :=
  rbind (section_str sections OVERVIEW) (fun overview =>
  rbind (section_str sections DOMAIN) (fun domain =>
  rbind (section_list sections ENABLES) (fun enables =>
  rbind (section_list sections LIMITATIONS) (fun limits =>
  rbind (section_list sections ACTIONS) (fun actions =>
  Ok (template_render (now ext) overview domain enables limits actions
        (fst (shape df)) (snd (shape df)) (missing_count df) (dup_count df)
        charts insights)))))).

(** The body of [if st.button(...)], lines 75-229; it returns the report
    markup it exported. *)
Definition generate (df : DataFrame) : M str :=
  answer <- llama (understanding_prompt ext df) ;;
  raw <- lift (clean_value answer) ;;
  sections <- lift (parse raw) ;;
  charts_html <- lift (build_charts df) ;;
  answer2 <- llama (insight_prompt ext df) ;;
  insights <- lift (insights_of answer2) ;;
  export_block (render_report df sections charts_html insights).

End Generate.

(** ** Auxiliary notions for the properties *)

(** The keys of [sections]. *)
Definition section_labels : list str :=
  [OVERVIEW; DOMAIN; ENABLES; LIMITATIONS; ACTIONS].

(** [current] is [None] or one of the keys. *)
Definition current_ok (current : option str) : Prop :=
  match current with
  | None => True
  | Some k => In k section_labels
  end.

(** No whitespace at either end. *)
Definition trimmed (s : str) : bool :=
  negb (first_is_space s) && negb (last_is_space s).

(** The characters of [s] that are not whitespace, in order. *)
Definition visible (s : str) : str :=
  filter (fun c => negb (is_space c)) s.

(** The number of missing cells, counted row by row. *)
Definition null_cells (rows : list (list cell)) : nat :=
  list_sum (map (fun r => count_true (map is_null r)) rows).

(** Every row has one cell per column. *)
Definition rectangular (df : DataFrame) : bool :=
  forallb (fun r => length r =? length (df_columns df)) (df_rows df).

(** The number of [Post] events of a trace. *)
Definition posts (tr : list event) : nat :=
  length (filter (fun e => match e with Post _ => true | _ => false end) tr).

(** ** Sample inputs *)

Definition sample_ext : externals :=
  {| understanding_prompt := fun _ => lit "You are a senior business analyst.";
     insight_prompt := fun _ => lit "Write 8-10 strong business insights.";
     bar_chart := fun _ _ => Ok (lit "<div>bar</div>");
     pie_chart := fun _ _ => Ok (lit "<div>pie</div>");
     now := lit "2024-05-01 10:30";
     wkhtmltopdf := fun _ =>
       {| written := [Byte.x25; Byte.x50; Byte.x44; Byte.x46];
          exit_ok := true |} |}.

(** The same collaborators with a PDF engine that fails. *)
Definition broken_engine_ext : externals :=
  {| understanding_prompt := understanding_prompt sample_ext;
     insight_prompt := insight_prompt sample_ext;
     bar_chart := bar_chart sample_ext;
     pie_chart := pie_chart sample_ext;
     now := now sample_ext;
     wkhtmltopdf := fun _ => {| written := []; exit_ok := false |} |}.

(** The same collaborators with an engine that writes two bytes and then
    reports an error. *)
Definition partial_engine_ext : externals :=
  {| understanding_prompt := understanding_prompt sample_ext;
     insight_prompt := insight_prompt sample_ext;
     bar_chart := bar_chart sample_ext;
     pie_chart := pie_chart sample_ext;
     now := now sample_ext;
     wkhtmltopdf := fun _ =>
       {| written := [Byte.x25; Byte.x50]; exit_ok := false |} |}.

(** A server that answers a request with the given text. *)
Definition answers (text : str) : reply :=
  Responds (Some (PDict [(RESPONSE, PStr text)])).

Definition sample_answer : str :=
  blocks_text [lit "Pizza orders of one year."] [lit "Food retail"]
    [lit "- Sales trends"; lit "- Menu mix"]
    [lit "* No cost data"]
    [[BULLET] ++ lit " Bundle sides"; lit "- Raise prices"].

Definition sample_insights : str :=
  lit "- Large pizzas bring most of the revenue." ++ [NL] ++ lit "ok".

Definition sample_world : world :=
  {| server := [answers sample_answer; answers sample_insights];
     files := []; trace := [] |}.

(** A table with text columns only: [name,city] and one row. *)
Definition text_only_df : DataFrame :=
  {| df_columns := [ {| col_name := lit "name"; col_dtype := ObjectT |};
                     {| col_name := lit "city"; col_dtype := ObjectT |} ];
     df_rows := [[Some (SText (lit "Ann")); Some (SText (lit "Oslo"))]] |}.

Definition sample_row (i : nat) : list cell :=
  [ Some (SInt (Z.of_nat i));
    (if (1 <=? i) && (i <=? 5) then None else Some (SFloat 1 0));
    Some (SText (lit "L"));
    Some (SFloat 25 (-1));
    Some (SBool true) ].

(** 100 rows and 5 columns; 5 cells are missing; 3 rows repeat row 0. *)
Definition df100 : DataFrame :=
  {| df_columns :=
       [ {| col_name := lit "order_id"; col_dtype := Int64 |};
         {| col_name := lit "quantity"; col_dtype := Float64 |};
         {| col_name := PIZZA_SIZE; col_dtype := ObjectT |};
         {| col_name := TOTAL_PRICE; col_dtype := Float64 |};
         {| col_name := lit "in_store"; col_dtype := BoolT |} ];
     df_rows := map sample_row (seq 0 97) ++ repeat (sample_row 0) 3 |}.

(** * Properties *)



(** ** Stripping *)

Section Strip.

Variable p : N -> bool.

Lemma lstrip_by_suffix (s : str) :
  exists w, s = w ++ lstrip_by p s /\ forallb p w = true.
Proof.
  induction s as [|c t IH]; simpl.
  - exists []. split; reflexivity.
  - destruct (p c) eqn:Hc.
    + destruct IH as [w [Hw Hp]]. exists (c :: w). simpl.
      rewrite Hc, Hp. split; [congruence | reflexivity].
    + exists []. split; reflexivity.
Qed.

Lemma lstrip_by_first (s : str) : first_sat p (lstrip_by p s) = false.
Proof.
  induction s as [|c t IH]; simpl; [reflexivity|].
  destruct (p c) eqn:Hc; [exact IH | simpl; exact Hc].
Qed.

Lemma lstrip_by_id (s : str) : first_sat p s = false -> lstrip_by p s = s.
Proof.
  destruct s as [|c t]; simpl; [reflexivity|]. intros ->. reflexivity.
Qed.

Lemma rstrip_by_prefix (s : str) :
  exists w, s = rstrip_by p s ++ w /\ forallb p w = true.
Proof.
  unfold rstrip_by. destruct (lstrip_by_suffix (rev s)) as [w [Hw Hp]].
  exists (rev w). split.
  - rewrite <- rev_app_distr, <- Hw, rev_involutive. reflexivity.
  - rewrite forallb_forall in *. intros x Hx. apply Hp.
    apply in_rev. exact Hx.
Qed.

Lemma rstrip_by_last (s : str) : first_sat p (rev (rstrip_by p s)) = false.
Proof.
  unfold rstrip_by. rewrite rev_involutive. apply lstrip_by_first.
Qed.

Lemma rstrip_by_id (s : str) : first_sat p (rev s) = false -> rstrip_by p s = s.
Proof.
  intros H. unfold rstrip_by. rewrite lstrip_by_id by exact H.
  apply rev_involutive.
Qed.

(** The right strip keeps the first character of what it leaves. *)
Lemma rstrip_by_first (s : str) :
  first_sat p s = false -> first_sat p (rstrip_by p s) = false.
Proof.
  intros H. destruct (rstrip_by_prefix s) as [w [Hw _]].
  destruct (rstrip_by p s) as [|c r] eqn:E; [reflexivity|].
  rewrite Hw in H. exact H.
Qed.

Lemma strip_by_first (s : str) : first_sat p (strip_by p s) = false.
Proof. apply rstrip_by_first, lstrip_by_first. Qed.

Lemma strip_by_last (s : str) : first_sat p (rev (strip_by p s)) = false.
Proof. apply rstrip_by_last. Qed.

Lemma strip_by_id (s : str) :
  first_sat p s = false -> first_sat p (rev s) = false -> strip_by p s = s.
Proof.
  intros H1 H2. unfold strip_by. rewrite (lstrip_by_id _ H1).
  apply rstrip_by_id, H2.
Qed.

Lemma strip_by_idempotent (s : str) :
  strip_by p (strip_by p s) = strip_by p s.
Proof. apply strip_by_id; [apply strip_by_first | apply strip_by_last]. Qed.

(** What is left is a contiguous piece of the input. *)
Lemma strip_by_infix (s : str) :
  exists a b, s = a ++ strip_by p s ++ b /\
              forallb p a = true /\ forallb p b = true.
Proof.
  destruct (lstrip_by_suffix s) as [a [Ha Hpa]].
  destruct (rstrip_by_prefix (lstrip_by p s)) as [b [Hb Hpb]].
  exists a, b. unfold strip_by. rewrite <- Hb. auto.
Qed.

End Strip.

(** ** Runs of line breaks *)

Lemma has_blank_run_cons (c : N) (t : str) :
  has_blank_run (c :: t) = (is_nl c && starts_nl t) || has_blank_run t.
Proof. destruct t; reflexivity. Qed.

Lemma has_blank_run_app (a b : str) :
  has_blank_run (a ++ b) = false ->
  has_blank_run a = false /\ has_blank_run b = false.
Proof.
  induction a as [|c t IH]; intros H.
  - split; [reflexivity | exact H].
  - change ((c :: t) ++ b) with (c :: (t ++ b)) in H.
    rewrite has_blank_run_cons in *.
    apply orb_false_iff in H. destruct H as [H1 H2].
    destruct (IH H2) as [Ha Hb]. split; [|exact Hb].
    rewrite Ha, orb_false_r.
    destruct t as [|d t']; [apply andb_false_r | exact H1].
Qed.

(** [has_blank_run] is the boolean form of "two consecutive line breaks
    occur somewhere". *)
Lemma has_blank_run_spec (s : str) :
  has_blank_run s = true <-> exists a b, s = a ++ NL :: NL :: b.
Proof.
  split.
  - induction s as [|c t IH]; [discriminate|].
    rewrite has_blank_run_cons. intros H.
    apply orb_true_iff in H. destruct H as [H | H].
    + apply andb_true_iff in H. destruct H as [Hc Ht].
      destruct t as [|d t']; [discriminate|]. simpl in Ht.
      apply N.eqb_eq in Hc, Ht. subst. exists [], t'. reflexivity.
    + destruct (IH H) as [a [b ->]]. exists (c :: a), b. reflexivity.
  - intros [a [b ->]]. induction a as [|c a IH]; [reflexivity|].
    change ((c :: a) ++ NL :: NL :: b) with (c :: (a ++ NL :: NL :: b)).
    rewrite has_blank_run_cons, IH. apply orb_true_r.
Qed.

Lemma re_sub_from_skipn (k : nat) (s : str) :
  re_sub_from k s = re_sub_from 0 (skipn k s).
Proof.
  revert k. induction s as [|c t IH]; intros [|k]; try reflexivity.
  simpl skipn. rewrite <- IH. reflexivity.
Qed.

(** The scanning equation of the substitution. *)
Lemma re_sub_newlines_cons (c : N) (t : str) :
  re_sub_newlines (c :: t) =
  if 2 <=? nl_run (c :: t)
  then NL :: re_sub_newlines (skipn (nl_run (c :: t) - 1) t)
  else c :: re_sub_newlines t.
Proof.
  unfold re_sub_newlines. cbn [re_sub_from].
  destruct (2 <=? nl_run (c :: t)); [|reflexivity].
  rewrite re_sub_from_skipn. reflexivity.
Qed.

Lemma nl_run_starts (s : str) : starts_nl s = false -> nl_run s = 0.
Proof. destruct s as [|c t]; simpl; [reflexivity|]. intros ->. reflexivity. Qed.

Lemma skipn_nl_run (s : str) : starts_nl (skipn (nl_run s) s) = false.
Proof.
  induction s as [|c t IH]; simpl; [reflexivity|].
  destruct (is_nl c) eqn:Hc; simpl; [exact IH | exact Hc].
Qed.

Lemma skipn_length_le (k : nat) (s : str) : length (skipn k s) <= length s.
Proof. rewrite length_skipn. lia. Qed.

Lemma re_sub_newlines_starts (s : str) :
  starts_nl (re_sub_newlines s) = starts_nl s.
Proof.
  destruct s as [|c t]; [reflexivity|].
  rewrite re_sub_newlines_cons.
  destruct (2 <=? nl_run (c :: t)) eqn:E; [|reflexivity].
  simpl. apply Nat.leb_le in E. simpl in E.
  destruct (is_nl c); [reflexivity | lia].
Qed.

Lemma re_sub_newlines_no_blank_run (s : str) :
  has_blank_run (re_sub_newlines s) = false.
Proof.
  remember (length s) as n eqn:Hn.
  revert s Hn. induction n as [n IH] using lt_wf_ind. intros s Hn.
  destruct s as [|c t]; [reflexivity|].
  rewrite re_sub_newlines_cons.
  destruct (2 <=? nl_run (c :: t)) eqn:E.
  - rewrite has_blank_run_cons, re_sub_newlines_starts.
    assert (Hrun : nl_run (c :: t) - 1 = nl_run t).
    { simpl. apply Nat.leb_le in E. simpl in E.
      destruct (is_nl c); lia. }
    rewrite Hrun, skipn_nl_run, andb_false_r. simpl.
    apply (IH (length (skipn (nl_run t) t))); [|reflexivity].
    subst n. simpl. pose proof (skipn_length_le (nl_run t) t). lia.
  - rewrite has_blank_run_cons, re_sub_newlines_starts.
    rewrite (IH (length t)); [|subst n; simpl; lia | reflexivity].
    rewrite orb_false_r.
    apply Nat.leb_gt in E. simpl in E.
    destruct (is_nl c); [|reflexivity]. simpl.
    destruct t as [|d t']; [reflexivity|]. simpl in *.
    destruct (is_nl d); [lia | reflexivity].
Qed.

Lemma re_sub_newlines_id (s : str) :
  has_blank_run s = false -> re_sub_newlines s = s.
Proof.
  induction s as [|c t IH]; [reflexivity|].
  rewrite has_blank_run_cons. intros H.
  apply orb_false_iff in H. destruct H as [H1 H2].
  rewrite re_sub_newlines_cons, (IH H2).
  replace (2 <=? nl_run (c :: t)) with false; [reflexivity|].
  symmetry. apply Nat.leb_gt. simpl.
  destruct (is_nl c); [|lia]. simpl in H1.
  rewrite (nl_run_starts _ H1). lia.
Qed.

Lemma clean_no_blank_run (text : str) : has_blank_run (clean text) = false.
Proof.
  unfold clean, strip.
  destruct (strip_by_infix is_space (re_sub_newlines text)) as [a [b [H _]]].
  pose proof (re_sub_newlines_no_blank_run text) as Hn.
  rewrite H in Hn.
  apply has_blank_run_app in Hn. destruct Hn as [_ Hn].
  apply has_blank_run_app in Hn. tauto.
Qed.

(** C5. The text normaliser is idempotent, its result holds no two
    consecutive line breaks, and its result neither starts nor ends with
    a whitespace character. *)
Theorem clean_idempotent_and_normal (text : str) :
  clean (clean text) = clean text /\
  has_blank_run (clean text) = false /\
  first_is_space (clean text) = false /\
  last_is_space (clean text) = false.
Proof.
  split; [|split; [apply clean_no_blank_run | split]].
  - unfold clean at 1.
    rewrite (re_sub_newlines_id _ (clean_no_blank_run text)).
    unfold clean, strip. apply strip_by_idempotent.
  - exact (strip_by_first is_space (re_sub_newlines text)).
  - exact (strip_by_last is_space (re_sub_newlines text)).
Qed.


(** ** The section parser *)

Lemma str_eqb_eq (a b : str) : str_eqb a b = true <-> a = b.
Proof.
  revert b. induction a as [|x a IH]; intros [|y b]; simpl;
    try (split; [discriminate | discriminate]); [tauto|].
  rewrite andb_true_iff, N.eqb_eq, IH.
  split; [intros [-> ->]; reflexivity | intros H; inversion H; auto].
Qed.

Lemma str_eqb_refl (a : str) : str_eqb a a = true.
Proof. apply str_eqb_eq. reflexivity. Qed.

(** The branches of the loop body, one equation each. *)

Section LoopBody.

Variables (current : option str) (sections : dict) (raw_line : str).

Lemma parse_line_header :
  is_header sections (strip raw_line) = true ->
  parse_line (current, sections) raw_line
  = Ok (Some (drop_last (strip raw_line)), sections).
Proof. intros H. unfold parse_line. rewrite H. reflexivity. Qed.

Lemma parse_line_no_current :
  is_header sections (strip raw_line) = false ->
  truthy current = false ->
  parse_line (current, sections) raw_line = Ok (current, sections).
Proof. intros H T. unfold parse_line. rewrite H, T. reflexivity. Qed.

Variable cur : str.
Hypothesis Hcur : current = Some cur.
Hypothesis Htruthy : truthy (Some cur) = true.
Hypothesis Hheader : is_header sections (strip raw_line) = false.

Lemma parse_line_bullet_list (l : list str) :
  startswith_any (strip raw_line) bullet_markers = true ->
  getitem sections cur = Some (VList l) ->
  parse_line (current, sections) raw_line
  = Ok (Some cur,
        setitem sections cur (VList (l ++ [bullet_entry (strip raw_line)]))).
Proof.
  intros B G. subst current. unfold parse_line.
  rewrite Hheader, Htruthy, B, G. reflexivity.
Qed.

Lemma parse_line_bullet_str (s : str) :
  startswith_any (strip raw_line) bullet_markers = true ->
  getitem sections cur = Some (VStr s) ->
  parse_line (current, sections) raw_line = Raise AttributeError.
Proof.
  intros B G. subst current. unfold parse_line.
  rewrite Hheader, Htruthy, B, G. reflexivity.
Qed.

Lemma parse_line_plain_list (l : list str) :
  startswith_any (strip raw_line) bullet_markers = false ->
  getitem sections cur = Some (VList l) ->
  parse_line (current, sections) raw_line = Ok (Some cur, sections).
Proof.
  intros B G. subst current. unfold parse_line.
  rewrite Hheader, Htruthy, B, G. reflexivity.
Qed.

Lemma parse_line_plain_str (s : str) :
  startswith_any (strip raw_line) bullet_markers = false ->
  getitem sections cur = Some (VStr s) ->
  parse_line (current, sections) raw_line
  = Ok (Some cur,
        setitem sections cur (VStr (s ++ [SPACE] ++ strip raw_line))).
Proof.
  intros B G. subst current. unfold parse_line.
  rewrite Hheader, Htruthy, B, G. reflexivity.
Qed.

End LoopBody.

Lemma parse_lines_app (st : pstate) (l1 l2 : list str) :
  parse_lines st (l1 ++ l2)
  = rbind (parse_lines st l1) (fun st' => parse_lines st' l2).
Proof.
  revert st. induction l1 as [|x l1 IH]; intros st; simpl; [reflexivity|].
  destruct (parse_line st x) as [st'|e]; simpl; [apply IH | reflexivity].
Qed.

(** The header test looks at the keys only. *)
Lemma is_header_mk_sections o d e l a (line : str) :
  is_header (mk_sections o d e l a) line = is_header sections_init line.
Proof. reflexivity. Qed.

Lemma has_key_labels (k : str) :
  has_key sections_init k = true ->
  k = OVERVIEW \/ k = DOMAIN \/ k = ENABLES \/ k = LIMITATIONS \/ k = ACTIONS.
Proof.
  unfold has_key, sections_init, mk_sections. cbn [existsb fst].
  rewrite !orb_true_iff, !str_eqb_eq. intuition discriminate.
Qed.

Lemma getitem_mk_sections o d e l a (k : str) (v : value) :
  getitem (mk_sections o d e l a) k = Some v ->
  (k = OVERVIEW /\ v = VStr o) \/ (k = DOMAIN /\ v = VStr d) \/
  (k = ENABLES /\ v = VList e) \/ (k = LIMITATIONS /\ v = VList l) \/
  (k = ACTIONS /\ v = VList a).
Proof.
  unfold mk_sections. cbn [getitem].
  destruct (str_eqb k OVERVIEW) eqn:E1;
    [apply str_eqb_eq in E1; intros [= <-]; auto|].
  destruct (str_eqb k DOMAIN) eqn:E2;
    [apply str_eqb_eq in E2; intros [= <-]; auto|].
  destruct (str_eqb k ENABLES) eqn:E3;
    [apply str_eqb_eq in E3; intros [= <-]; auto|].
  destruct (str_eqb k LIMITATIONS) eqn:E4;
    [apply str_eqb_eq in E4; intros [= <-]; auto 6|].
  destruct (str_eqb k ACTIONS) eqn:E5;
    [apply str_eqb_eq in E5; intros [= <-]; auto 6|].
  discriminate.
Qed.

Lemma spaced_app (s t : str) :
  spaced s = true -> spaced t = true -> spaced (s ++ t) = true.
Proof. destruct s; simpl; auto. Qed.

(** One iteration keeps the five keys and only ever extends a value at
    its end; what is added to a free-text value is empty or begins with
    the separating space. *)
Lemma parse_line_extends o d e l a (cur : option str) (line : str)
    (st' : pstate) :
  parse_line (cur, mk_sections o d e l a) line = Ok st' ->
  exists cur' o2 d2 e2 l2 a2,
    st' = (cur', mk_sections (o ++ o2) (d ++ d2) (e ++ e2) (l ++ l2) (a ++ a2))
    /\ spaced o2 = true /\ spaced d2 = true.
Proof.
  assert (Hsame : forall c : option str, exists cur' o2 d2 e2 l2 a2,
    (c, mk_sections o d e l a)
    = (cur', mk_sections (o ++ o2) (d ++ d2) (e ++ e2) (l ++ l2) (a ++ a2))
    /\ spaced o2 = true /\ spaced d2 = true).
  { intros c. exists c, [], [], [], [], []. rewrite !app_nil_r. auto. }
  unfold parse_line.
  destruct (is_header _ _); [intros [= <-]; apply Hsame|].
  destruct (truthy cur); [|intros [= <-]; apply Hsame].
  destruct cur as [k|]; [|intros [= <-]; apply Hsame].
  destruct (getitem (mk_sections o d e l a) k) as [v|] eqn:G;
    [|destruct (startswith_any _ _); discriminate].
  apply getitem_mk_sections in G.
  destruct (startswith_any _ _);
    destruct G as [[-> ->]|[[-> ->]|[[-> ->]|[[-> ->]|[-> ->]]]]];
    try discriminate; intros [= <-]; try apply Hsame.
  - exists (Some ENABLES), [], [], [bullet_entry (strip line)], [], [].
    rewrite !app_nil_r. auto.
  - exists (Some LIMITATIONS), [], [], [], [bullet_entry (strip line)], [].
    rewrite !app_nil_r. auto.
  - exists (Some ACTIONS), [], [], [], [], [bullet_entry (strip line)].
    rewrite !app_nil_r. auto.
  - exists (Some OVERVIEW), ([SPACE] ++ strip line), [], [], [], [].
    rewrite !app_nil_r. auto.
  - exists (Some DOMAIN), [], ([SPACE] ++ strip line), [], [], [].
    rewrite !app_nil_r. auto.
Qed.

Lemma parse_lines_extends (lines : list str) :
  forall o d e l a cur st',
  parse_lines (cur, mk_sections o d e l a) lines = Ok st' ->
  exists cur' o2 d2 e2 l2 a2,
    st' = (cur', mk_sections (o ++ o2) (d ++ d2) (e ++ e2) (l ++ l2) (a ++ a2))
    /\ spaced o2 = true /\ spaced d2 = true.
Proof.
  induction lines as [|x rest IH]; intros o d e l a cur st'.
  - intros [= <-]. exists cur, [], [], [], [], [].
    rewrite !app_nil_r. auto.
  - cbn [parse_lines].
    destruct (parse_line (cur, mk_sections o d e l a) x) as [st1|] eqn:E1;
      [|discriminate].
    cbn [rbind].
    apply parse_line_extends in E1.
    destruct E1 as (c1 & o1 & d1 & e1 & l1 & a1 & -> & So1 & Sd1).
    intros E2. apply IH in E2.
    destruct E2 as (c2 & o2 & d2 & e2 & l2 & a2 & -> & So2 & Sd2).
    exists c2, (o1 ++ o2), (d1 ++ d2), (e1 ++ e2), (l1 ++ l2), (a1 ++ a2).
    rewrite !app_assoc. auto using spaced_app.
Qed.


Lemma split_no_sep (sep : N) (s : str) :
  mem sep s = false -> split sep s = [s].
Proof.
  induction s as [|c t IH]; [reflexivity|].
  unfold mem. cbn [existsb split]. intros H.
  apply orb_false_iff in H. destruct H as [H1 H2].
  rewrite N.eqb_sym, H1. unfold mem in IH. rewrite (IH H2). reflexivity.
Qed.

Lemma startswith_nil (s : str) : startswith s [] = true.
Proof. destruct s; reflexivity. Qed.

(** A line that begins with a bullet marker is never a header: no label
    begins with one. *)
Lemma bullet_not_header (line : str) :
  startswith_any line bullet_markers = true ->
  is_header sections_init line = false.
Proof.
  unfold startswith_any, bullet_markers. cbn [existsb].
  destruct line as [|c t]; [reflexivity|]. cbn [startswith].
  rewrite !startswith_nil, !andb_true_r, orb_false_r, !orb_true_iff, !N.eqb_eq.
  intros H. unfold is_header. apply andb_false_iff. right.
  destruct t as [|c' t'];
    [destruct H as [->|[->| ->]]; reflexivity|].
  change (drop_last (c :: c' :: t')) with (c :: drop_last (c' :: t')).
  destruct H as [->|[->| ->]]; reflexivity.
Qed.

Lemma parse_line_before_header (sections : dict) (line : str) :
  is_header sections (strip line) = false ->
  parse_line (None, sections) line = Ok (None, sections).
Proof. intros H. apply parse_line_no_current; [exact H | reflexivity]. Qed.

Lemma parse_lines_before_header (sections : dict) (pre rest : list str) :
  forallb (fun l => negb (is_header sections (strip l))) pre = true ->
  parse_lines (None, sections) (pre ++ rest)
  = parse_lines (None, sections) rest.
Proof.
  induction pre as [|x pre IH]; [reflexivity|].
  cbn [forallb]. intros H. apply andb_true_iff in H. destruct H as [Hx Hp].
  apply negb_true_iff in Hx.
  cbn [app parse_lines]. rewrite (parse_line_before_header _ _ Hx).
  cbn [rbind]. apply IH, Hp.
Qed.

(** C7. Lines that come before the first header leave no trace: parsing
    goes on as if they were absent.  The empty input, and an input that is
    one bullet line, give the all-default sections. *)
Theorem lines_before_header_dropped :
  (forall pre rest : list str,
     forallb (fun l => negb (is_header_line l)) pre = true ->
     parse_lines (None, sections_init) (pre ++ rest)
     = parse_lines (None, sections_init) rest) /\
  parse [] = Ok (mk_sections [] [] [] [] []) /\
  (forall line : str,
     no_nl line = true -> is_bullet_line line = true ->
     parse line = Ok (mk_sections [] [] [] [] [])).
Proof.
  split; [|split].
  - intros pre rest H. apply parse_lines_before_header. exact H.
  - reflexivity.
  - intros line Hn Hb. unfold parse.
    rewrite split_no_sep by (apply negb_true_iff; exact Hn).
    cbn [parse_lines].
    rewrite parse_line_before_header
      by (apply bullet_not_header; exact Hb).
    reflexivity.
Qed.

Lemma lines_before_header_dropped_witness :
  parse_lines (None, sections_init)
    ([lit "- stray"; lit "Sure, here it is"] ++ [lit "DOMAIN:"; lit "Retail"])
  = parse_lines (None, sections_init) [lit "DOMAIN:"; lit "Retail"] /\
  parse (lit "* only a bullet") = Ok (mk_sections [] [] [] [] []).
Proof.
  split.
  - apply (proj1 lines_before_header_dropped). reflexivity.
  - apply (proj2 (proj2 lines_before_header_dropped)); reflexivity.
Defined.

(** C1 (the code departs from it). In [OVERVIEW], a free-text section, a
    bullet line makes the loop call [append] on a string: the parser
    raises [AttributeError] instead of discarding the line. *)
Theorem parse_raises_on_bullet_in_free_text :
  parse (lit "OVERVIEW:" ++ [NL] ++ lit "- item") = Raise AttributeError.
Proof. reflexivity. Qed.

Lemma spaced_begins (s t : str) :
  spaced s = true -> begins_with_space (s ++ SPACE :: t) = true.
Proof. destruct s; simpl; auto. Qed.

(** C10 (as stated, refuted). In ["OVERVIEW:\n \nPizza"] the section
    receives the non-empty, non-bullet line ["Pizza"], yet its value is
    ["  Pizza"]: the whitespace-only line before it was appended as an
    empty line after a space of its own, so the value begins with two
    spaces, not a single one. *)
Lemma free_text_two_leading_spaces :
  split NL (lit "OVERVIEW:" ++ [NL] ++ lit " " ++ [NL] ++ lit "Pizza")
  = [lit "OVERVIEW:"; lit " "] ++ lit "Pizza" :: [] /\
  parse_lines (None, sections_init) [lit "OVERVIEW:"; lit " "]
  = Ok (Some OVERVIEW, mk_sections (lit " ") [] [] [] []) /\
  is_plain_line (lit "Pizza") = true /\
  strip (lit "Pizza") <> [] /\
  parse (lit "OVERVIEW:" ++ [NL] ++ lit " " ++ [NL] ++ lit "Pizza")
  = Ok (mk_sections (lit "  Pizza") [] [] [] []) /\
  single_leading_space (lit "  Pizza") = false.
Proof.
  repeat split. vm_compute. discriminate.
Qed.

Lemma not_space_not_SPACE (c : N) :
  is_space c = false -> N.eqb c SPACE = false.
Proof.
  intros H. destruct (N.eqb_spec c SPACE) as [-> | _]; [|reflexivity].
  discriminate H.
Qed.

(** C10 (amended). When a free-text section is current and a non-empty
    line that is neither a header nor a bullet arrives, the line is
    appended after a space, so the parsed value of the section begins with
    a space.  The line itself begins with no whitespace, so when it is the
    first line the section receives (the value was still empty) the value
    begins with a single space. *)
Theorem free_text_begins_with_space
    (raw label line : str) (pre post : list str) (d0 secs : dict) :
  label = OVERVIEW \/ label = DOMAIN ->
  split NL raw = pre ++ line :: post ->
  parse_lines (None, sections_init) pre = Ok (Some label, d0) ->
  is_plain_line line = true ->
  strip line <> [] ->
  parse raw = Ok secs ->
  exists old rest,
    getitem d0 label = Some (VStr old) /\
    getitem secs label = Some (VStr (old ++ [SPACE] ++ strip line ++ rest)) /\
    begins_with_space (old ++ [SPACE] ++ strip line ++ rest) = true /\
    first_is_space (strip line) = false /\
    (old = [] ->
     single_leading_space (old ++ [SPACE] ++ strip line ++ rest) = true).
Proof.
  intros Hlabel Hsplit Hpre Hplain Hne Hparse.
  apply andb_true_iff in Hplain. destruct Hplain as [Hh Hb].
  apply negb_true_iff in Hh, Hb.
  unfold is_header_line in Hh. unfold is_bullet_line in Hb.
  destruct (parse_lines_extends _ _ _ _ _ _ _ _ Hpre)
    as (c1 & o1 & d1 & e1 & l1 & a1 & E1 & So1 & Sd1).
  cbn [app] in E1. injection E1 as _ ->.
  unfold parse in Hparse. rewrite Hsplit, parse_lines_app, Hpre in Hparse.
  cbn [rbind parse_lines] in Hparse.
  pose proof (strip_by_first is_space line) as Hfirst.
  assert (Hsingle : forall rest,
            single_leading_space ([] ++ [SPACE] ++ strip line ++ rest) = true).
  { intros rest. fold (strip line) in Hfirst.
    destruct (strip line) as [|c t]; [congruence|].
    cbn [app single_leading_space]. cbn [first_sat] in Hfirst.
    rewrite (not_space_not_SPACE _ Hfirst). reflexivity. }
  destruct Hlabel as [-> | ->].
  - rewrite (parse_line_plain_str (Some OVERVIEW)
               (mk_sections o1 d1 e1 l1 a1) line OVERVIEW
               eq_refl eq_refl Hh o1 Hb eq_refl) in Hparse.
    cbn [rbind] in Hparse.
    change (setitem (mk_sections o1 d1 e1 l1 a1) OVERVIEW
              (VStr (o1 ++ [SPACE] ++ strip line)))
      with (mk_sections (o1 ++ [SPACE] ++ strip line) d1 e1 l1 a1) in Hparse.
    destruct (parse_lines _ post) as [st2|] eqn:E2; [|discriminate].
    destruct (parse_lines_extends _ _ _ _ _ _ _ _ E2)
      as (c2 & o2 & d2 & e2 & l2 & a2 & -> & _ & _).
    cbn [rbind snd] in Hparse. injection Hparse as <-.
    exists o1, o2. rewrite <- !app_assoc.
    split; [reflexivity|]. split; [reflexivity|].
    split; [apply spaced_begins, So1|]. split; [exact Hfirst|].
    intros ->. apply Hsingle.
  - rewrite (parse_line_plain_str (Some DOMAIN)
               (mk_sections o1 d1 e1 l1 a1) line DOMAIN
               eq_refl eq_refl Hh d1 Hb eq_refl) in Hparse.
    cbn [rbind] in Hparse.
    change (setitem (mk_sections o1 d1 e1 l1 a1) DOMAIN
              (VStr (d1 ++ [SPACE] ++ strip line)))
      with (mk_sections o1 (d1 ++ [SPACE] ++ strip line) e1 l1 a1) in Hparse.
    destruct (parse_lines _ post) as [st2|] eqn:E2; [|discriminate].
    destruct (parse_lines_extends _ _ _ _ _ _ _ _ E2)
      as (c2 & o2 & d2 & e2 & l2 & a2 & -> & _ & _).
    cbn [rbind snd] in Hparse. injection Hparse as <-.
    exists d1, d2. rewrite <- !app_assoc.
    split; [reflexivity|]. split; [reflexivity|].
    split; [apply spaced_begins, Sd1|]. split; [exact Hfirst|].
    intros ->. apply Hsingle.
Qed.

Lemma free_text_begins_with_space_witness :
  exists old rest,
    getitem (mk_sections [] [] [] [] []) OVERVIEW = Some (VStr old) /\
    getitem (mk_sections (lit " Pizza sales of one year." ++ lit " By order.")
               [] [] [] []) OVERVIEW
    = Some (VStr (old ++ [SPACE] ++ strip (lit "Pizza sales of one year.")
                      ++ rest)) /\
    begins_with_space
      (old ++ [SPACE] ++ strip (lit "Pizza sales of one year.") ++ rest)
    = true /\
    first_is_space (strip (lit "Pizza sales of one year.")) = false /\
    (old = [] ->
     single_leading_space
       (old ++ [SPACE] ++ strip (lit "Pizza sales of one year.") ++ rest)
     = true).
Proof.
  apply (free_text_begins_with_space
           (lit "Intro" ++ [NL] ++ lit "OVERVIEW:" ++ [NL] ++
            lit "Pizza sales of one year." ++ [NL] ++ lit "By order.")
           OVERVIEW (lit "Pizza sales of one year.")
           [lit "Intro"; lit "OVERVIEW:"] [lit "By order."]).
  - left. reflexivity.
  - reflexivity.
  - reflexivity.
  - reflexivity.
  - vm_compute. discriminate.
  - reflexivity.
Defined.


(** ** Blocks of a well-formed response *)

Lemma split_app_sep (sep : N) (p r : str) :
  mem sep p = false -> split sep (p ++ sep :: r) = p :: split sep r.
Proof.
  induction p as [|c p IH]; intros H.
  - cbn [app split]. rewrite N.eqb_refl. reflexivity.
  - unfold mem in H. cbn [existsb] in H.
    apply orb_false_iff in H. destruct H as [H1 H2].
    cbn [app split]. rewrite N.eqb_sym, H1, (IH H2). reflexivity.
Qed.

Lemma split_join (lines : list str) :
  lines <> [] -> forallb no_nl lines = true ->
  split NL (join [NL] lines) = lines.
Proof.
  induction lines as [|p ps IH]; [congruence|]. intros _ H.
  cbn [forallb] in H. apply andb_true_iff in H. destruct H as [Hp Hps].
  apply negb_true_iff in Hp.
  destruct ps as [|q ps']; [apply split_no_sep, Hp|].
  change (join [NL] (p :: q :: ps')) with (p ++ NL :: join [NL] (q :: ps')).
  rewrite (split_app_sep _ _ _ Hp), IH; [reflexivity | discriminate | exact Hps].
Qed.

Ltac bullet_block label field :=
  match goal with
  | |- forall lines, _ =>
      intros lines; induction lines as [|x rest IH];
      intros o d e l a H;
      [ unfold entries; cbn [map]; rewrite app_nil_r; reflexivity
      | cbn [forallb] in H; apply andb_true_iff in H;
        destruct H as [Hx Hrest];
        cbn [parse_lines];
        rewrite (parse_line_bullet_list (Some label)
                   (mk_sections o d e l a) x label eq_refl eq_refl
                   (bullet_not_header _ Hx) field Hx eq_refl);
        cbn [rbind] ]
  end.

Lemma parse_enables_block :
  forall lines o d e l a,
  forallb is_bullet_line lines = true ->
  parse_lines (Some ENABLES, mk_sections o d e l a) lines
  = Ok (Some ENABLES, mk_sections o d (e ++ entries lines) l a).
Proof.
  bullet_block ENABLES e.
  change (setitem (mk_sections o d e l a) ENABLES
            (VList (e ++ [bullet_entry (strip x)])))
    with (mk_sections o d (e ++ [bullet_entry (strip x)]) l a).
  rewrite (IH _ _ _ _ _ Hrest), <- app_assoc. reflexivity.
Qed.

Lemma parse_limitations_block :
  forall lines o d e l a,
  forallb is_bullet_line lines = true ->
  parse_lines (Some LIMITATIONS, mk_sections o d e l a) lines
  = Ok (Some LIMITATIONS, mk_sections o d e (l ++ entries lines) a).
Proof.
  bullet_block LIMITATIONS l.
  change (setitem (mk_sections o d e l a) LIMITATIONS
            (VList (l ++ [bullet_entry (strip x)])))
    with (mk_sections o d e (l ++ [bullet_entry (strip x)]) a).
  rewrite (IH _ _ _ _ _ Hrest), <- app_assoc. reflexivity.
Qed.

Lemma parse_actions_block :
  forall lines o d e l a,
  forallb is_bullet_line lines = true ->
  parse_lines (Some ACTIONS, mk_sections o d e l a) lines
  = Ok (Some ACTIONS, mk_sections o d e l (a ++ entries lines)).
Proof.
  bullet_block ACTIONS a.
  change (setitem (mk_sections o d e l a) ACTIONS
            (VList (a ++ [bullet_entry (strip x)])))
    with (mk_sections o d e l (a ++ [bullet_entry (strip x)])).
  rewrite (IH _ _ _ _ _ Hrest), <- app_assoc. reflexivity.
Qed.

Ltac text_block label field :=
  match goal with
  | |- forall lines, _ =>
      intros lines; induction lines as [|x rest IH];
      intros o d e l a H;
      [ unfold free_text; cbn [map concat]; rewrite app_nil_r; reflexivity
      | cbn [forallb] in H; apply andb_true_iff in H;
        destruct H as [Hx Hrest];
        apply andb_true_iff in Hx; destruct Hx as [Hh Hb];
        apply negb_true_iff in Hh, Hb;
        cbn [parse_lines];
        rewrite (parse_line_plain_str (Some label)
                   (mk_sections o d e l a) x label eq_refl eq_refl
                   Hh field Hb eq_refl);
        cbn [rbind] ]
  end.

Lemma free_text_cons (x : str) (rest : list str) :
  free_text (x :: rest) = [SPACE] ++ strip x ++ free_text rest.
Proof. reflexivity. Qed.

Lemma parse_overview_block :
  forall lines o d e l a,
  forallb is_plain_line lines = true ->
  parse_lines (Some OVERVIEW, mk_sections o d e l a) lines
  = Ok (Some OVERVIEW, mk_sections (o ++ free_text lines) d e l a).
Proof.
  text_block OVERVIEW o.
  change (setitem (mk_sections o d e l a) OVERVIEW
            (VStr (o ++ [SPACE] ++ strip x)))
    with (mk_sections (o ++ [SPACE] ++ strip x) d e l a).
  rewrite (IH _ _ _ _ _ Hrest), free_text_cons, <- !app_assoc. reflexivity.
Qed.

Lemma parse_domain_block :
  forall lines o d e l a,
  forallb is_plain_line lines = true ->
  parse_lines (Some DOMAIN, mk_sections o d e l a) lines
  = Ok (Some DOMAIN, mk_sections o (d ++ free_text lines) e l a).
Proof.
  text_block DOMAIN d.
  change (setitem (mk_sections o d e l a) DOMAIN
            (VStr (d ++ [SPACE] ++ strip x)))
    with (mk_sections o (d ++ [SPACE] ++ strip x) e l a).
  rewrite (IH _ _ _ _ _ Hrest), free_text_cons, <- !app_assoc. reflexivity.
Qed.

(** A header line makes its label current and leaves the dict alone. *)
Lemma parse_header_step (label : str) cur o d e l a (rest : list str) :
  is_header sections_init (strip (header label)) = true ->
  drop_last (strip (header label)) = label ->
  parse_lines (cur, mk_sections o d e l a) (header label :: rest)
  = parse_lines (Some label, mk_sections o d e l a) rest.
Proof.
  intros H1 H2. cbn [parse_lines].
  rewrite (parse_line_header cur (mk_sections o d e l a) (header label) H1).
  rewrite H2. reflexivity.
Qed.

Lemma forallb_app_l {A} (f : A -> bool) (x y : list A) :
  forallb f (x ++ y) = true -> forallb f x = true.
Proof. rewrite forallb_app. intros H. apply andb_true_iff in H. tauto. Qed.

Lemma forallb_app_r {A} (f : A -> bool) (x y : list A) :
  forallb f (x ++ y) = true -> forallb f y = true.
Proof. rewrite forallb_app. intros H. apply andb_true_iff in H. tauto. Qed.

(** The parse of a response with one block per label. *)
Lemma parse_blocks_text (ov dom en li ac : list str) :
  forallb no_nl (ov ++ dom ++ en ++ li ++ ac) = true ->
  forallb is_plain_line (ov ++ dom) = true ->
  forallb is_bullet_line (en ++ li ++ ac) = true ->
  parse (blocks_text ov dom en li ac)
  = Ok (mk_sections (free_text ov) (free_text dom)
          (entries en) (entries li) (entries ac)).
Proof.
  intros Hnl Hplain Hbul.
  unfold parse, blocks_text. rewrite split_join; [|discriminate|].
  2:{ pose proof (forallb_app_l _ _ _ Hnl) as N1.
      pose proof (forallb_app_r _ _ _ Hnl) as N2.
      pose proof (forallb_app_l _ _ _ N2) as N3.
      pose proof (forallb_app_r _ _ _ N2) as N4.
      pose proof (forallb_app_l _ _ _ N4) as N5.
      pose proof (forallb_app_r _ _ _ N4) as N6.
      pose proof (forallb_app_l _ _ _ N6) as N7.
      pose proof (forallb_app_r _ _ _ N6) as N8.
      cbn [forallb]. rewrite forallb_app, N1. cbn [forallb].
      rewrite forallb_app, N3. cbn [forallb].
      rewrite forallb_app, N5. cbn [forallb].
      rewrite forallb_app, N7. cbn [forallb].
      rewrite N8. reflexivity. }
  pose proof (forallb_app_l _ _ _ Hplain) as P1.
  pose proof (forallb_app_r _ _ _ Hplain) as P2.
  pose proof (forallb_app_l _ _ _ Hbul) as B1.
  pose proof (forallb_app_r _ _ _ Hbul) as B2.
  pose proof (forallb_app_l _ _ _ B2) as B3.
  pose proof (forallb_app_r _ _ _ B2) as B4.
  unfold sections_init.
  rewrite (parse_header_step OVERVIEW) by reflexivity.
  rewrite parse_lines_app, (parse_overview_block _ _ _ _ _ _ P1). cbn [rbind].
  rewrite (parse_header_step DOMAIN) by reflexivity.
  rewrite parse_lines_app, (parse_domain_block _ _ _ _ _ _ P2). cbn [rbind].
  rewrite (parse_header_step ENABLES) by reflexivity.
  rewrite parse_lines_app, (parse_enables_block _ _ _ _ _ _ B1). cbn [rbind].
  rewrite (parse_header_step LIMITATIONS) by reflexivity.
  rewrite parse_lines_app, (parse_limitations_block _ _ _ _ _ _ B3).
  cbn [rbind].
  rewrite (parse_header_step ACTIONS) by reflexivity.
  rewrite (parse_actions_block _ _ _ _ _ _ B4). reflexivity.
Qed.


(** C6 (as stated, refuted). For the line ["* **Upsell** sides"] under the
    actions header the parser stores ["Upsell** sides"]: [strip("-•* ")]
    removes every leading and trailing marker character and space, not the
    one marker, so the entry is not the line without its marker. *)
Lemma bullet_entry_differs_from_spec :
  parse (lit "PROFIT IMPROVEMENT ACTIONS:" ++ [NL] ++ lit "* **Upsell** sides")
  = Ok (mk_sections [] [] [] [] [lit "Upsell** sides"]) /\
  spec_bullet_entry (lit "* **Upsell** sides") = lit "**Upsell** sides" /\
  parse (lit "PROFIT IMPROVEMENT ACTIONS:" ++ [NL] ++ lit "* **Upsell** sides")
  <> Ok (mk_sections [] [] [] [] [spec_bullet_entry (lit "* **Upsell** sides")]).
Proof.
  split; [reflexivity | split; [reflexivity|]].
  vm_compute. discriminate.
Qed.

(** C6 (amended). While a list-typed section is current, a line that
    begins with a bullet marker appends one entry to that section's list:
    the line with every leading and trailing marker character and space
    removed, then stripped of whitespace.  Hence a response with one block
    per label, whose list blocks consist of bullet lines, gives for each
    list section one entry per bullet line, in the order of the lines. *)
Theorem bullet_lines_appended :
  (forall o d e l a (label line : str) (old : list str),
     getitem (mk_sections o d e l a) label = Some (VList old) ->
     is_bullet_line line = true ->
     parse_line (Some label, mk_sections o d e l a) line
     = Ok (Some label,
           setitem (mk_sections o d e l a) label
             (VList (old ++ [strip (strip_chars bullet_chars (strip line))]))))
  /\
  (forall ov dom en li ac : list str,
     forallb no_nl (ov ++ dom ++ en ++ li ++ ac) = true ->
     forallb is_plain_line (ov ++ dom) = true ->
     forallb is_bullet_line (en ++ li ++ ac) = true ->
     parse (blocks_text ov dom en li ac)
     = Ok (mk_sections (free_text ov) (free_text dom)
             (map (fun x => strip (strip_chars bullet_chars (strip x))) en)
             (map (fun x => strip (strip_chars bullet_chars (strip x))) li)
             (map (fun x => strip (strip_chars bullet_chars (strip x))) ac))
     /\ length (entries en) = length en
     /\ length (entries li) = length li
     /\ length (entries ac) = length ac).
Proof.
  split.
  - intros o d e l a label line old G B.
    apply getitem_mk_sections in G.
    destruct G as [[_ G]|[[_ G]|[[-> G]|[[-> G]|[-> G]]]]];
      try discriminate; injection G as <-;
      apply parse_line_bullet_list;
      try reflexivity; try exact B; apply bullet_not_header, B.
  - intros ov dom en li ac Hnl Hp Hb.
    split; [exact (parse_blocks_text _ _ _ _ _ Hnl Hp Hb)|].
    unfold entries. rewrite !length_map. auto.
Qed.

Lemma bullet_lines_appended_witness :
  parse_line (Some LIMITATIONS, mk_sections [] [] [] [lit "No costs"] [])
    (lit "  - No customer ids  ")
  = Ok (Some LIMITATIONS,
        setitem (mk_sections [] [] [] [lit "No costs"] []) LIMITATIONS
          (VList ([lit "No costs"] ++
             [strip (strip_chars bullet_chars
                       (strip (lit "  - No customer ids  ")))])))
  /\
  parse (blocks_text [lit "Pizza orders."] [lit "Food retail"]
           [lit "- Sales trends"; [BULLET] ++ lit " Menu mix"]
           [lit "* No costs"] [lit "- Upsell"; lit "- Bundle"])
  = Ok (mk_sections (lit " Pizza orders.") (lit " Food retail")
          [lit "Sales trends"; lit "Menu mix"]
          [lit "No costs"] [lit "Upsell"; lit "Bundle"]).
Proof.
  split.
  - apply (proj1 bullet_lines_appended); reflexivity.
  - apply (proj2 bullet_lines_appended
             [lit "Pizza orders."] [lit "Food retail"]
             [lit "- Sales trends"; [BULLET] ++ lit " Menu mix"]
             [lit "* No costs"] [lit "- Upsell"; lit "- Bundle"]);
      reflexivity.
Defined.


(** ** Statistics of the uploaded table *)

Lemma scalar_eqb_refl (x : scalar) : scalar_eqb x x = true.
Proof.
  destruct x; simpl.
  - apply Z.eqb_refl.
  - rewrite !Z.eqb_refl. reflexivity.
  - apply Bool.eqb_reflx.
  - apply str_eqb_refl.
Qed.

Lemma cell_eqb_refl (c : cell) : cell_eqb c c = true.
Proof. destruct c; [apply scalar_eqb_refl | reflexivity]. Qed.

Lemma row_eqb_refl (r : list cell) : row_eqb r r = true.
Proof.
  induction r as [|c r IH]; [reflexivity|].
  simpl. rewrite cell_eqb_refl, IH. reflexivity.
Qed.

Lemma existsb_rev {A} (f : A -> bool) (l : list A) :
  existsb f (rev l) = existsb f l.
Proof.
  induction l as [|x l IH]; [reflexivity|].
  simpl. rewrite existsb_app, IH. simpl.
  rewrite orb_false_r. apply orb_comm.
Qed.

Lemma existsb_ext_in {A} (f g : A -> bool) (l : list A) :
  (forall x, In x l -> f x = g x) -> existsb f l = existsb g l.
Proof.
  induction l as [|x l IH]; intros H; [reflexivity|].
  simpl. rewrite (H x (or_introl eq_refl)), IH; [reflexivity|].
  intros y Hy. apply H. right. exact Hy.
Qed.

Lemma existsb_map {A B} (f : B -> bool) (g : A -> B) (l : list A) :
  existsb f (map g l) = existsb (fun x => f (g x)) l.
Proof.
  induction l as [|x l IH]; [reflexivity|]. simpl. rewrite IH. reflexivity.
Qed.

(** A search through a list, as a search through its positions. *)
Lemma existsb_nth {A} (f : A -> bool) (l : list A) (dflt : A) :
  existsb f l = existsb (fun j => f (nth j l dflt)) (seq 0 (length l)).
Proof.
  induction l as [|x l IH]; [reflexivity|].
  cbn [length seq existsb nth]. rewrite <- seq_shift, existsb_map, IH.
  reflexivity.
Qed.

Lemma count_true_map {A} (g : A -> bool) (l : list A) :
  count_true (map g l) = length (filter g l).
Proof.
  unfold count_true. induction l as [|x l IH]; [reflexivity|].
  simpl. unfold id at 1. destruct (g x); simpl; rewrite IH; reflexivity.
Qed.

(** With the rows [pre] already seen, the marks of [rest] are, position by
    position, "some earlier row equals this one". *)
Lemma duplicated_from_positions (rest pre : list (list cell)) :
  duplicated_from (rev pre) rest
  = map (fun i =>
           existsb (fun j => row_eqb (nth i (pre ++ rest) [])
                                     (nth j (pre ++ rest) []))
                   (seq 0 i))
        (seq (length pre) (length rest)).
Proof.
  revert pre. induction rest as [|r rest IH]; intros pre; [reflexivity|].
  cbn [duplicated_from length seq map]. f_equal.
  - rewrite existsb_rev, (existsb_nth _ pre []).
    apply existsb_ext_in. intros j Hj. apply in_seq in Hj.
    rewrite nth_middle, app_nth1 by lia. reflexivity.
  - change (r :: rev pre) with (rev [r] ++ rev pre).
    rewrite <- rev_app_distr, IH, length_app, <- app_assoc.
    cbn [length app]. rewrite Nat.add_1_r. reflexivity.
Qed.

Lemma dup_count_spec (df : DataFrame) :
  dup_count df = spec_dup_count (df_rows df).
Proof.
  unfold dup_count, duplicated, spec_dup_count.
  change (duplicated_from [] (df_rows df))
    with (duplicated_from (rev []) (df_rows df)).
  rewrite duplicated_from_positions.
  cbn [app length]. apply count_true_map.
Qed.

Lemma missing_count_no_rows (cols : list column) :
  missing_count {| df_columns := cols; df_rows := [] |} = 0.
Proof.
  unfold missing_count, isnull_sum. cbn [df_rows df_columns map].
  generalize (seq 0 (length cols)). intros idx.
  induction idx as [|j idx IH]; [reflexivity | exact IH].
Qed.

(** C9. The summary is a function of the table alone.  With no rows it is
    zero rows, the column count, no missing cell and no duplicate; the
    duplicate count is the number of rows equal to an earlier row; two
    equal rows alone give one duplicate. *)
Theorem summarize_counts :
  (forall cols : list column,
     summarize {| df_columns := cols; df_rows := [] |}
     = {| st_rows := 0; st_cols := length cols;
          st_missing := 0; st_dup := 0 |}) /\
  (forall df : DataFrame,
     st_dup (summarize df) = spec_dup_count (df_rows df)) /\
  (forall (cols : list column) (r : list cell),
     st_dup (summarize {| df_columns := cols; df_rows := [r; r] |}) = 1).
Proof.
  split; [|split].
  - intros cols. unfold summarize. rewrite missing_count_no_rows.
    reflexivity.
  - intros df. apply dup_count_spec.
  - intros cols r. unfold summarize, dup_count, duplicated.
    cbn [st_dup df_rows duplicated_from existsb].
    rewrite row_eqb_refl. reflexivity.
Qed.

(** ** Revenue column *)

Lemma resolve_revenue_col_none (df : DataFrame) :
  in_columns TOTAL_PRICE df = false ->
  numeric_columns df = [] ->
  resolve_revenue_col df = Raise IndexError.
Proof.
  intros H1 H2. unfold resolve_revenue_col. rewrite H1, H2. reflexivity.
Qed.


(** ** The model client *)

Lemma after_posts_0 (prompt : str) (w : world) : after_posts prompt w 0 = w.
Proof. destruct w. unfold after_posts. simpl. rewrite app_nil_r. reflexivity. Qed.

Lemma after_posts_S (prompt : str) (w : world) (n : nat) :
  after_posts prompt (after_posts prompt w 1) n = after_posts prompt w (S n).
Proof.
  unfold after_posts. cbn [server files trace]. f_equal.
  - destruct (server w); [destruct n|]; reflexivity.
  - rewrite <- app_assoc. reflexivity.
Qed.

Lemma reply_at_after_post (prompt : str) (w : world) (i : nat) :
  reply_at (after_posts prompt w 1) i = reply_at w (S i).
Proof.
  unfold reply_at, after_posts. cbn [server].
  destruct (server w); [destruct i|]; reflexivity.
Qed.

(** One pass through the [try] body: the request is made; the pass
    returns exactly when the reply carries a JSON object. *)
Lemma attempt_outcome (prompt : str) (w : world) :
  match attempt_value (reply_at w 0) with
  | Some v =>
      (r <- requests_post prompt ;;
       j <- lift (response_json r) ;;
       lift (py_get j RESPONSE (PStr []))) w
      = (Ok v, after_posts prompt w 1)
  | None =>
      exists e,
      (r <- requests_post prompt ;;
       j <- lift (response_json r) ;;
       lift (py_get j RESPONSE (PStr []))) w
      = (Raise e, after_posts prompt w 1)
  end.
Proof.
  unfold reply_at, bind, requests_post, lift, after_posts.
  destruct (server w) as [|[|[[| | | | | |]|]] rest]; cbn;
    try (eexists; reflexivity); reflexivity.
Qed.

Lemma llama_loop_spec (range : list nat) (prompt : str) :
  forall w : world,
  exists n v,
    n <= length range /\
    llama_loop range prompt w = (Ok v, after_posts prompt w n) /\
    ((forall i, i < length range -> attempt_value (reply_at w i) = None) ->
     n = length range /\ v = PStr []) /\
    (forall i x,
       i < length range ->
       attempt_value (reply_at w i) = Some x ->
       (forall j, j < i -> attempt_value (reply_at w j) = None) ->
       n = S i /\ v = x).
Proof.
  induction range as [|a rest IH]; intros w.
  - exists 0, (PStr []). cbn [length llama_loop].
    rewrite after_posts_0. repeat split; try reflexivity; try lia.
    all: intros; lia.
  - cbn [llama_loop length]. unfold try_except.
    pose proof (attempt_outcome prompt w) as Hbody.
    destruct (attempt_value (reply_at w 0)) as [x0|] eqn:E0.
    + rewrite Hbody. exists 1, x0. split; [lia|]. split; [reflexivity|].
      split.
      * intros Hnone. rewrite (Hnone 0) in E0 by lia. discriminate.
      * intros i x Hi Hx Hbefore. destruct i as [|i].
        -- rewrite Hx in E0. injection E0 as ->. auto.
        -- rewrite (Hbefore 0) in E0 by lia. discriminate.
    + destruct Hbody as [e ->].
      destruct (IH (after_posts prompt w 1)) as (n & v & Hn & Hrun & Hall & Hfirst).
      exists (S n), v. split; [lia|]. split.
      * rewrite Hrun, after_posts_S. reflexivity.
      * split.
        -- intros Hnone. destruct Hall as [-> ->]; [|auto].
           intros i Hi. rewrite reply_at_after_post. apply Hnone. lia.
        -- intros i x Hi Hx Hbefore. destruct i as [|i];
             [rewrite Hx in E0; discriminate|].
           destruct (Hfirst i x) as [-> ->]; auto; [lia | |].
           ++ rewrite reply_at_after_post. exact Hx.
           ++ intros j Hj. rewrite reply_at_after_post. apply Hbefore. lia.
Qed.

(** C8. [llama] never raises.  It makes at most three requests, one after
    the other, and nothing else happens in between: the world it leaves is
    the one after [n <= 3] requests.  When no attempt succeeds it has made
    three and returns empty text; otherwise it stops at the first attempt
    that succeeds and returns that attempt's generated text (empty text
    when the reply has no ["response"] field, by [attempt_value]). *)
Theorem llama_attempts (prompt : str) (w : world) :
  exists n v,
    n <= 3 /\
    llama prompt w = (Ok v, after_posts prompt w n) /\
    ((forall i, i < 3 -> attempt_value (reply_at w i) = None) ->
     n = 3 /\ v = PStr []) /\
    (forall i x,
       i < 3 ->
       attempt_value (reply_at w i) = Some x ->
       (forall j, j < i -> attempt_value (reply_at w j) = None) ->
       n = S i /\ v = x) /\
    (forall d, lookup d RESPONSE = None ->
       attempt_value (Responds (Some (PDict d))) = Some (PStr [])).
Proof.
  destruct (llama_loop_spec (seq 0 3) prompt w) as (n & v & H1 & H2 & H3 & H4).
  exists n, v. cbn [length seq] in *. repeat split; auto.
  - apply H3; assumption.
  - apply H3; assumption.
  - apply (H4 i x); assumption.
  - apply (H4 i x); assumption.
  - intros d Hd. cbn [attempt_value]. rewrite Hd. reflexivity.
Qed.


(** ** The export block *)

Lemma fresh_path_above (fs : list (path * bytes)) (f : path * bytes) :
  In f fs -> (fst f < fresh_path fs)%N.
Proof.
  unfold fresh_path. induction fs as [|g fs IH]; [contradiction|].
  cbn [map fold_right]. intros [-> | H]; [lia|].
  specialize (IH H). lia.
Qed.

Lemma remove_absent (fs : list (path * bytes)) (p : path) :
  (forall f, In f fs -> fst f <> p) -> remove_file fs p = fs.
Proof.
  unfold remove_file, path in *.
  induction fs as [|g fs IH]; intros H; [reflexivity|].
  cbn [filter].
  destruct (N.eqb p (fst g)) eqn:E.
  - apply N.eqb_eq in E. exfalso. apply (H g); [left; reflexivity | auto].
  - cbn [negb]. rewrite IH; [reflexivity|].
    intros f Hf. apply H. right. exact Hf.
Qed.

Lemma remove_fresh (fs : list (path * bytes)) :
  remove_file fs (fresh_path fs) = fs.
Proof.
  apply remove_absent. intros f Hf E.
  pose proof (fresh_path_above fs f Hf). unfold path in *. lia.
Qed.

Lemma file_exists_fresh (fs : list (path * bytes)) :
  file_exists fs (fresh_path fs) = false.
Proof.
  unfold file_exists.
  match goal with |- ?t = false => destruct t eqn:E; [|reflexivity] end.
  apply existsb_exists in E. destruct E as [f [Hf E]].
  apply N.eqb_eq in E. pose proof (fresh_path_above fs f Hf).
  unfold path in *. lia.
Qed.

Lemma write_file_fresh (fs : list (path * bytes)) (d : bytes) :
  write_file fs (fresh_path fs) d = (fresh_path fs, d) :: fs.
Proof.
  unfold write_file. f_equal. exact (remove_fresh fs).
Qed.

Lemma write_file_over (fs : list (path * bytes)) (p : path) (d0 d : bytes) :
  write_file ((p, d0) :: fs) p d = (p, d) :: remove_file fs p.
Proof.
  unfold write_file, remove_file. cbn [filter fst].
  rewrite N.eqb_refl. reflexivity.
Qed.

Lemma read_file_head (fs : list (path * bytes)) (p : path) (d : bytes) :
  read_file ((p, d) :: fs) p = Some d.
Proof. cbn [read_file]. rewrite N.eqb_refl. reflexivity. Qed.

Lemma file_exists_head (fs : list (path * bytes)) (p : path) (d : bytes) :
  file_exists ((p, d) :: fs) p = true.
Proof. unfold file_exists. cbn [existsb fst]. rewrite N.eqb_refl. reflexivity. Qed.

Lemma remove_file_head (fs : list (path * bytes)) (p : path) (d : bytes) :
  remove_file ((p, d) :: fs) p = remove_file fs p.
Proof. unfold remove_file. cbn [filter fst]. rewrite N.eqb_refl. reflexivity. Qed.

(** When [pdfkit] raises, the block raises and the temporary file it
    created is still there, holding what the engine wrote. *)
Lemma export_block_failure (ext : externals) (html : str) (w : world) :
  engine_succeeds (wkhtmltopdf ext html) = false ->
  export_block ext (Ok html) w
  = (Raise OSError,
     set_files w
       ((fresh_path (files w), written (wkhtmltopdf ext html)) :: files w)).
Proof.
  intros H. destruct w as [sv fs tr].
  unfold export_block, bind, NamedTemporaryFile, lift, pdfkit_from_string,
    set_files.
  cbn [files server trace]. rewrite H, write_file_fresh.
  cbn [files server trace].
  rewrite write_file_over, remove_fresh. reflexivity.
Qed.

(** When the engine succeeds, the bytes are offered for download and the
    file system is as before. *)
Lemma export_block_success (ext : externals) (html : str) (w : world) :
  engine_succeeds (wkhtmltopdf ext html) = true ->
  export_block ext (Ok html) w
  = (Ok html,
     {| server := server w; files := files w;
        trace := trace w ++ [Download (written (wkhtmltopdf ext html))] |}).
Proof.
  intros H. destruct w as [sv fs tr].
  unfold export_block, bind, NamedTemporaryFile, lift, pdfkit_from_string,
    open_rb, download_button, os_remove, ret, set_files.
  cbn [files server trace]. rewrite H, write_file_fresh.
  cbn [files server trace].
  rewrite write_file_over, remove_fresh, read_file_head.
  cbn [files server trace].
  rewrite file_exists_head, remove_file_head, remove_fresh.
  reflexivity.
Qed.

(** C3 (the code departs from it). With an engine that fails, the export
    block raises the engine's error, and the temporary file it created
    stays on disk: [os.remove] is the last statement of the block and is
    not reached. *)
Theorem export_failure_leaves_temp_file :
  files sample_world = [] /\
  fst (export_block broken_engine_ext (Ok (lit "<html></html>")) sample_world)
  = Raise OSError /\
  files (snd (export_block broken_engine_ext (Ok (lit "<html></html>"))
                sample_world))
  = [(1%N, [])].
Proof. repeat split. Qed.

(** ** The whole run *)

(** C2 (the code departs from it). For a table of text columns without
    ["total_price"], [columns[-1]] is taken from an empty index: the
    resolution raises [IndexError] and so does the run, before any chart or
    report. *)
Theorem generate_crashes_without_numeric_column :
  in_columns TOTAL_PRICE text_only_df = false /\
  numeric_columns text_only_df = [] /\
  resolve_revenue_col text_only_df = Raise IndexError /\
  fst (generate sample_ext text_only_df sample_world) = Raise IndexError.
Proof. repeat split. Qed.

Lemma llama_answers (prompt text : str) (rest : list reply)
    (fs : list (path * bytes)) (tr : list event) :
  llama prompt {| server := answers text :: rest; files := fs; trace := tr |}
  = (Ok (PStr text),
     {| server := rest; files := fs; trace := tr ++ [Post prompt] |}).
Proof. reflexivity. Qed.

Lemma startswith_app (n b : str) : startswith (n ++ b) n = true.
Proof.
  induction n as [|c n IH]; [apply startswith_nil|].
  cbn [app startswith]. rewrite N.eqb_refl, IH. reflexivity.
Qed.

Lemma contains_app (n a b : str) : contains n (a ++ n ++ b) = true.
Proof.
  induction a as [|c a IH].
  - cbn [app]. destruct (n ++ b) eqn:E; cbn [contains];
      rewrite <- E, startswith_app; reflexivity.
  - cbn [app contains]. rewrite IH. apply orb_true_r.
Qed.

Lemma template_render_quality date overview domain enables limits actions
    rows cols missing dup charts insights :
  contains (quality_paragraphs rows cols missing dup)
    (template_render date overview domain enables limits actions
       rows cols missing dup charts insights) = true.
Proof.
  unfold template_render, data_quality_block.
  change (lit "<p>Rows: " ++ str_of_nat rows ++ lit " | Columns: " ++
          str_of_nat cols ++ lit "</p>" ++ [NL] ++
          lit "<p>Missing: " ++ str_of_nat missing ++ lit " | Duplicates: " ++
          str_of_nat dup ++ lit "</p>")
    with (quality_paragraphs rows cols missing dup).
  rewrite (app_assoc (lit "<h2>Data Quality</h2>")).
  rewrite <- (app_assoc (lit "<h2>Data Quality</h2>" ++ [NL])).
  rewrite app_assoc.
  apply contains_app.
Qed.


(** C4 (as stated, refuted). For a table with 100 rows, 5 columns, 5
    missing cells and 3 duplicate rows and an answer that has the expected
    form, the run succeeds, and neither the data-quality block nor the
    report holds the one-line sentence: the template writes two
    paragraphs. *)
Lemma report_lacks_one_line_quality_sentence :
  summarize df100
  = {| st_rows := 100; st_cols := 5; st_missing := 5; st_dup := 3 |} /\
  contains (spec_quality_line 100 5 5 3) (data_quality_block 100 5 5 3)
  = false /\
  exists html w',
    generate sample_ext df100 sample_world = (Ok html, w') /\
    contains (spec_quality_line 100 5 5 3) html = false.
Proof.
  split; [vm_compute; reflexivity|].
  split; [vm_compute; reflexivity|].
  eexists. eexists. split.
  - vm_compute. reflexivity.
  - vm_compute. reflexivity.
Qed.

(** C4 (amended). For a table with 100 rows, 5 columns, 5 missing cells
    and 3 duplicate rows, an answer that once normalised has one block per
    label, charts and an engine that do not fail, the run returns the
    report, and the report holds the two paragraphs
    [<p>Rows: 100 | Columns: 5</p>] and
    [<p>Missing: 5 | Duplicates: 3</p>] on consecutive lines. *)
Theorem report_quality_paragraphs
    (ext : externals) (df : DataFrame) (answer answer2 : str)
    (ov dom en li ac charts : list str)
    (rest : list reply) (fs : list (path * bytes)) (tr : list event) :
  shape df = (100, 5) ->
  missing_count df = 5 ->
  dup_count df = 3 ->
  clean answer = blocks_text ov dom en li ac ->
  forallb no_nl (ov ++ dom ++ en ++ li ++ ac) = true ->
  forallb is_plain_line (ov ++ dom) = true ->
  forallb is_bullet_line (en ++ li ++ ac) = true ->
  build_charts ext df = Ok charts ->
  (forall h, engine_succeeds (wkhtmltopdf ext h) = true) ->
  exists html w',
    generate ext df
      {| server := answers answer :: answers answer2 :: rest;
         files := fs; trace := tr |}
    = (Ok html, w') /\
    contains (quality_paragraphs 100 5 5 3) html = true.
Proof.
  intros Hshape Hmiss Hdup Hclean Hnl Hplain Hbul Hcharts Hengine.
  pose proof (parse_blocks_text _ _ _ _ _ Hnl Hplain Hbul) as Hparse.
  rewrite <- Hclean in Hparse.
  destruct (insights_of (PStr answer2)) as [insights|] eqn:Hins;
    [|discriminate].
  set (html := template_render (now ext) (free_text ov) (free_text dom)
                 (entries en) (entries li) (entries ac) 100 5 5 3
                 charts insights).
  exists html. eexists. split; [|apply template_render_quality].
  unfold generate, bind.
  rewrite llama_answers. unfold lift at 1. cbn [clean_value].
  unfold lift at 1. rewrite Hparse.
  unfold lift at 1. rewrite Hcharts.
  rewrite llama_answers. unfold lift at 1. rewrite Hins.
  unfold render_report.
  change (section_str (mk_sections (free_text ov) (free_text dom)
            (entries en) (entries li) (entries ac)) OVERVIEW)
    with (@Ok str (free_text ov)).
  change (section_str (mk_sections (free_text ov) (free_text dom)
            (entries en) (entries li) (entries ac)) DOMAIN)
    with (@Ok str (free_text dom)).
  change (section_list (mk_sections (free_text ov) (free_text dom)
            (entries en) (entries li) (entries ac)) ENABLES)
    with (@Ok (list str) (entries en)).
  change (section_list (mk_sections (free_text ov) (free_text dom)
            (entries en) (entries li) (entries ac)) LIMITATIONS)
    with (@Ok (list str) (entries li)).
  change (section_list (mk_sections (free_text ov) (free_text dom)
            (entries en) (entries li) (entries ac)) ACTIONS)
    with (@Ok (list str) (entries ac)).
  cbn [rbind]. rewrite Hshape, Hmiss, Hdup. cbn [fst snd].
  fold html. rewrite (export_block_success ext html _ (Hengine html)).
  reflexivity.
Qed.

Lemma report_quality_paragraphs_witness :
  exists html w',
    generate sample_ext df100
      {| server := answers sample_answer :: answers sample_insights :: [];
         files := []; trace := [] |}
    = (Ok html, w') /\
    contains (quality_paragraphs 100 5 5 3) html = true.
Proof.
  apply (report_quality_paragraphs sample_ext df100
           sample_answer sample_insights
           [lit "Pizza orders of one year."] [lit "Food retail"]
           [lit "- Sales trends"; lit "- Menu mix"]
           [lit "* No cost data"]
           [[BULLET] ++ lit " Bundle sides"; lit "- Raise prices"]
           [lit "<div>pie</div>"]).
  - vm_compute. reflexivity.
  - vm_compute. reflexivity.
  - vm_compute. reflexivity.
  - vm_compute. reflexivity.
  - reflexivity.
  - reflexivity.
  - reflexivity.
  - reflexivity.
  - intros h. reflexivity.
Defined.

Lemma llama_attempts_witness :
  exists n v,
    n <= 3 /\
    llama (lit "hello")
      {| server := [ConnectionFails; Responds None; answers (lit "hi")];
         files := []; trace := [] |}
    = (Ok v,
       after_posts (lit "hello")
         {| server := [ConnectionFails; Responds None; answers (lit "hi")];
            files := []; trace := [] |} n).
Proof.
  destruct (llama_attempts (lit "hello")
              {| server := [ConnectionFails; Responds None; answers (lit "hi")];
                 files := []; trace := [] |})
    as (n & v & H1 & H2 & _).
  exists n, v. split; assumption.
Defined.


(** ** More on the section parser *)

Lemma endswith_colon (line : str) :
  endswith line [COLON] = true -> line = drop_last line ++ [COLON].
Proof.
  unfold endswith, drop_last. cbn [rev app].
  destruct (rev line) as [|c r] eqn:E; [discriminate|].
  cbn [startswith]. rewrite startswith_nil, andb_true_r, N.eqb_eq.
  intros ->.
  assert (Hl : line = rev r ++ [COLON]).
  { rewrite <- (rev_involutive line), E. reflexivity. }
  rewrite Hl at 2. rewrite removelast_last. exact Hl.
Qed.

Lemma header_is_label (line : str) :
  is_header sections_init line = true -> In (drop_last line) section_labels.
Proof.
  unfold is_header. intros H. apply andb_true_iff in H. destruct H as [_ H].
  apply has_key_labels in H. unfold section_labels. cbn [In].
  intuition auto.
Qed.

Lemma trimmed_strip (s : str) : trimmed (strip s) = true.
Proof.
  unfold trimmed, first_is_space, last_is_space, strip.
  rewrite strip_by_first, strip_by_last. reflexivity.
Qed.

(** What one iteration does, given the five keys and a [current] that is
    unset or a key: it goes on, adding at most one piece to one value, or
    it raises [AttributeError] on a bullet line under a free-text key. *)
Lemma parse_line_cases o d e l a (cur : option str) (line : str) :
  current_ok cur ->
  (exists cur' o2 d2 e2 l2 a2,
     parse_line (cur, mk_sections o d e l a) line
     = Ok (cur', mk_sections (o ++ o2) (d ++ d2) (e ++ e2) (l ++ l2) (a ++ a2))
     /\ current_ok cur'
     /\ (is_bullet_line line = false -> e2 = [] /\ l2 = [] /\ a2 = [])
     /\ forallb trimmed (e2 ++ l2 ++ a2) = true)
  \/
  (parse_line (cur, mk_sections o d e l a) line = Raise AttributeError
   /\ (cur = Some OVERVIEW \/ cur = Some DOMAIN)
   /\ is_bullet_line line = true).
Proof.
  intros Hcur.
  assert (Hsame : forall c : option str, current_ok c ->
    exists cur' o2 d2 e2 l2 a2,
      Ok (c, mk_sections o d e l a)
      = Ok (cur', mk_sections (o ++ o2) (d ++ d2) (e ++ e2) (l ++ l2) (a ++ a2))
      /\ current_ok cur'
      /\ (is_bullet_line line = false -> e2 = [] /\ l2 = [] /\ a2 = [])
      /\ forallb trimmed (e2 ++ l2 ++ a2) = true).
  { intros c Hc. exists c, [], [], [], [], []. rewrite !app_nil_r.
    repeat split; auto. }
  destruct (is_header sections_init (strip line)) eqn:Hh.
  { left. rewrite (parse_line_header cur (mk_sections o d e l a) line Hh).
    apply Hsame. apply header_is_label, Hh. }
  destruct cur as [k|].
  2:{ left. rewrite parse_line_no_current by (exact Hh || reflexivity).
      apply Hsame. exact I. }
  destruct (startswith_any (strip line) bullet_markers) eqn:Hb;
    cbn [current_ok section_labels In] in Hcur;
    destruct Hcur as [<-|[<-|[<-|[<-|[<-|[]]]]]].
  - right. split; [|auto].
    exact (parse_line_bullet_str (Some OVERVIEW) (mk_sections o d e l a) line
             OVERVIEW eq_refl eq_refl Hh o Hb eq_refl).
  - right. split; [|auto].
    exact (parse_line_bullet_str (Some DOMAIN) (mk_sections o d e l a) line
             DOMAIN eq_refl eq_refl Hh d Hb eq_refl).
  - left. rewrite (parse_line_bullet_list (Some ENABLES)
                     (mk_sections o d e l a) line ENABLES eq_refl eq_refl
                     Hh e Hb eq_refl).
    exists (Some ENABLES), [], [], [bullet_entry (strip line)], [], [].
    rewrite !app_nil_r. split; [reflexivity|].
    split; [cbn; auto 6|]. split; [unfold is_bullet_line; congruence|].
    cbn [app forallb]. unfold bullet_entry. rewrite trimmed_strip. reflexivity.
  - left. rewrite (parse_line_bullet_list (Some LIMITATIONS)
                     (mk_sections o d e l a) line LIMITATIONS eq_refl eq_refl
                     Hh l Hb eq_refl).
    exists (Some LIMITATIONS), [], [], [], [bullet_entry (strip line)], [].
    rewrite !app_nil_r. split; [reflexivity|].
    split; [cbn; auto 6|]. split; [unfold is_bullet_line; congruence|].
    cbn [app forallb]. unfold bullet_entry. rewrite trimmed_strip. reflexivity.
  - left. rewrite (parse_line_bullet_list (Some ACTIONS)
                     (mk_sections o d e l a) line ACTIONS eq_refl eq_refl
                     Hh a Hb eq_refl).
    exists (Some ACTIONS), [], [], [], [], [bullet_entry (strip line)].
    rewrite !app_nil_r. split; [reflexivity|].
    split; [cbn; auto 6|]. split; [unfold is_bullet_line; congruence|].
    cbn [app forallb]. unfold bullet_entry. rewrite trimmed_strip. reflexivity.
  - left. rewrite (parse_line_plain_str (Some OVERVIEW)
                     (mk_sections o d e l a) line OVERVIEW eq_refl eq_refl
                     Hh o Hb eq_refl).
    exists (Some OVERVIEW), ([SPACE] ++ strip line), [], [], [], [].
    rewrite !app_nil_r. split; [reflexivity|].
    split; [cbn; auto 6|]. repeat split; auto.
  - left. rewrite (parse_line_plain_str (Some DOMAIN)
                     (mk_sections o d e l a) line DOMAIN eq_refl eq_refl
                     Hh d Hb eq_refl).
    exists (Some DOMAIN), [], ([SPACE] ++ strip line), [], [], [].
    rewrite !app_nil_r. split; [reflexivity|].
    split; [cbn; auto 6|]. repeat split; auto.
  - left. rewrite (parse_line_plain_list (Some ENABLES)
                     (mk_sections o d e l a) line ENABLES eq_refl eq_refl
                     Hh e Hb eq_refl).
    apply Hsame. cbn; auto 6.
  - left. rewrite (parse_line_plain_list (Some LIMITATIONS)
                     (mk_sections o d e l a) line LIMITATIONS eq_refl eq_refl
                     Hh l Hb eq_refl).
    apply Hsame. cbn; auto 6.
  - left. rewrite (parse_line_plain_list (Some ACTIONS)
                     (mk_sections o d e l a) line ACTIONS eq_refl eq_refl
                     Hh a Hb eq_refl).
    apply Hsame. cbn; auto 6.
Qed.

Lemma forallb_trimmed_merge (e1 l1 a1 e2 l2 a2 : list str) :
  forallb trimmed (e1 ++ l1 ++ a1) = true ->
  forallb trimmed (e2 ++ l2 ++ a2) = true ->
  forallb trimmed ((e1 ++ e2) ++ (l1 ++ l2) ++ (a1 ++ a2)) = true.
Proof.
  rewrite !forallb_app, !andb_true_iff. tauto.
Qed.

(** The loop as a whole: it ends normally, having only extended the five
    values, or it raises [AttributeError] at the first bullet line that
    arrives under a free-text key. *)
Lemma parse_lines_cases (lines : list str) :
  forall o d e l a (cur : option str),
  current_ok cur ->
  (exists cur' o2 d2 e2 l2 a2,
     parse_lines (cur, mk_sections o d e l a) lines
     = Ok (cur', mk_sections (o ++ o2) (d ++ d2) (e ++ e2) (l ++ l2) (a ++ a2))
     /\ current_ok cur'
     /\ (forallb (fun x => negb (is_bullet_line x)) lines = true ->
         e2 = [] /\ l2 = [] /\ a2 = [])
     /\ forallb trimmed (e2 ++ l2 ++ a2) = true)
  \/
  (exists pre line post label dct,
     lines = pre ++ line :: post
     /\ parse_lines (cur, mk_sections o d e l a) pre = Ok (Some label, dct)
     /\ (label = OVERVIEW \/ label = DOMAIN)
     /\ is_bullet_line line = true
     /\ parse_lines (cur, mk_sections o d e l a) lines = Raise AttributeError).
Proof.
  induction lines as [|x rest IH]; intros o d e l a cur Hcur.
  - left. exists cur, [], [], [], [], []. rewrite !app_nil_r.
    repeat split; auto.
  - destruct (parse_line_cases o d e l a cur x Hcur)
      as [(c1 & o1 & d1 & e1 & l1 & a1 & E1 & C1 & B1 & T1) | (E1 & K1 & B1)].
    + destruct (IH (o ++ o1) (d ++ d1) (e ++ e1) (l ++ l1) (a ++ a1) c1 C1)
        as [(c2 & o2 & d2 & e2 & l2 & a2 & E2 & C2 & B2 & T2)
           | (pre & line & post & label & dct & -> & E2 & K2 & B2 & R2)].
      * left.
        exists c2, (o1 ++ o2), (d1 ++ d2), (e1 ++ e2), (l1 ++ l2), (a1 ++ a2).
        split; [cbn [parse_lines]; rewrite E1; cbn [rbind];
                rewrite E2, !app_assoc; reflexivity|].
        split; [exact C2|].
        split; [|apply forallb_trimmed_merge; assumption].
        cbn [forallb]. intros H. apply andb_true_iff in H.
        destruct H as [Hx Hrest]. apply negb_true_iff in Hx.
        destruct (B1 Hx) as (-> & -> & ->).
        destruct (B2 Hrest) as (-> & -> & ->). auto.
      * right. exists (x :: pre), line, post, label, dct.
        split; [reflexivity|].
        cbn [parse_lines app]. rewrite E1. cbn [rbind]. auto.
    + right.
      destruct K1 as [-> | ->].
      * exists [], x, rest, OVERVIEW, (mk_sections o d e l a).
        cbn [parse_lines app]. rewrite E1. auto 6.
      * exists [], x, rest, DOMAIN, (mk_sections o d e l a).
        cbn [parse_lines app]. rewrite E1. auto 6.
Qed.

(** X1. The parser raises nothing but [AttributeError], and only for this
    reason: some line begins with a bullet marker while [OVERVIEW] or
    [DOMAIN] is the current section. *)
Theorem parse_failure_cause (raw : str) (e : exn) :
  parse raw = Raise e ->
  e = AttributeError /\
  exists pre line post label dct,
    split NL raw = pre ++ line :: post /\
    parse_lines (None, sections_init) pre = Ok (Some label, dct) /\
    (label = OVERVIEW \/ label = DOMAIN) /\
    is_bullet_line line = true.
Proof.
  unfold parse. intros H.
  destruct (parse_lines_cases (split NL raw) [] [] [] [] [] None I)
    as [(c & o2 & d2 & e2 & l2 & a2 & E & _) 
       | (pre & line & post & label & dct & S & P & K & B & R)].
  - unfold sections_init in H. rewrite E in H. discriminate.
  - unfold sections_init in H. rewrite R in H. cbn [rbind] in H.
    injection H as <-. split; [reflexivity|].
    exists pre, line, post, label, dct. auto.
Qed.

Lemma parse_failure_cause_witness :
  AttributeError = AttributeError /\
  exists pre line post label dct,
    split NL (lit "DOMAIN:" ++ [NL] ++ lit "Retail" ++ [NL] ++ lit "* food")
    = pre ++ line :: post /\
    parse_lines (None, sections_init) pre = Ok (Some label, dct) /\
    (label = OVERVIEW \/ label = DOMAIN) /\
    is_bullet_line line = true.
Proof.
  apply (parse_failure_cause
           (lit "DOMAIN:" ++ [NL] ++ lit "Retail" ++ [NL] ++ lit "* food")).
  reflexivity.
Defined.

(** X2. A text none of whose lines begins with a bullet marker always
    parses, and its three list sections are empty. *)
Theorem bullet_free_text_parses (raw : str) :
  forallb (fun x => negb (is_bullet_line x)) (split NL raw) = true ->
  exists o d, parse raw = Ok (mk_sections o d [] [] []).
Proof.
  intros Hfree. unfold parse.
  destruct (parse_lines_cases (split NL raw) [] [] [] [] [] None I)
    as [(c & o2 & d2 & e2 & l2 & a2 & E & _ & B & _) 
       | (pre & line & post & label & dct & S & _ & _ & B & _)].
  - destruct (B Hfree) as (-> & -> & ->).
    exists o2, d2. unfold sections_init. rewrite E. reflexivity.
  - exfalso. rewrite S, forallb_app in Hfree.
    apply andb_true_iff in Hfree. destruct Hfree as [_ Hfree].
    cbn [forallb] in Hfree. rewrite B in Hfree. discriminate.
Qed.

Lemma bullet_free_text_parses_witness :
  exists o d,
    parse (lit "OVERVIEW:" ++ [NL] ++ lit "Sales data." ++ [NL] ++
           lit "LIMITATIONS:" ++ [NL] ++ lit "none known")
    = Ok (mk_sections o d [] [] []).
Proof.
  apply bullet_free_text_parses. reflexivity.
Defined.

(** X3. Whatever the parser returns has the five keys with their types,
    so rendering the report from it cannot fail: it is the template
    filled with the five values and the four statistics of the table. *)
Theorem parse_result_renders (raw : str) (secs : dict) :
  parse raw = Ok secs ->
  exists o d e l a,
    secs = mk_sections o d e l a /\
    forall (ext : externals) (df : DataFrame) (charts insights : list str),
      render_report ext df secs charts insights
      = Ok (template_render (now ext) o d e l a
              (length (df_rows df)) (length (df_columns df))
              (missing_count df) (dup_count df) charts insights).
Proof.
  unfold parse. intros H.
  destruct (parse_lines (None, sections_init) (split NL raw))
    as [st|] eqn:E; [|discriminate].
  destruct (parse_lines_extends _ _ _ _ _ _ _ _ E)
    as (c & o & d & e & l & a & -> & _ & _).
  cbn [rbind snd] in H. injection H as <-.
  exists ([] ++ o), ([] ++ d), ([] ++ e), ([] ++ l), ([] ++ a).
  split; reflexivity.
Qed.

Lemma parse_result_renders_witness :
  exists o d e l a,
    mk_sections (lit " Sales data.") [] [] [lit "none known"] []
    = mk_sections o d e l a /\
    forall (ext : externals) (df : DataFrame) (charts insights : list str),
      render_report ext df
        (mk_sections (lit " Sales data.") [] [] [lit "none known"] [])
        charts insights
      = Ok (template_render (now ext) o d e l a
              (length (df_rows df)) (length (df_columns df))
              (missing_count df) (dup_count df) charts insights).
Proof.
  apply (parse_result_renders
           (lit "OVERVIEW:" ++ [NL] ++ lit "Sales data." ++ [NL] ++
            lit "LIMITATIONS:" ++ [NL] ++ lit "- none known")).
  reflexivity.
Defined.

(** X4. A line is taken as a header exactly when, stripped, it is one of
    the five labels followed by a colon and nothing else. *)
Theorem header_line_iff (raw_line : str) :
  is_header_line raw_line = true <->
  exists label, In label section_labels /\ strip raw_line = label ++ [COLON].
Proof.
  unfold is_header_line. split.
  - intros H. exists (drop_last (strip raw_line)).
    split; [apply header_is_label, H|].
    apply endswith_colon. unfold is_header in H.
    apply andb_true_iff in H. tauto.
  - intros (label & Hin & ->).
    cbn [section_labels In] in Hin.
    destruct Hin as [<-|[<-|[<-|[<-|[<-|[]]]]]]; reflexivity.
Qed.

(** X5. While a list section is current, lines that are neither headers
    nor bullets change nothing: stray text is not stored. *)
Theorem list_section_ignores_plain_lines o d e l a (label : str)
    (lines : list str) :
  label = ENABLES \/ label = LIMITATIONS \/ label = ACTIONS ->
  forallb is_plain_line lines = true ->
  parse_lines (Some label, mk_sections o d e l a) lines
  = Ok (Some label, mk_sections o d e l a).
Proof.
  intros Hlabel. induction lines as [|x rest IH]; [reflexivity|].
  cbn [forallb]. intros H. apply andb_true_iff in H. destruct H as [Hx Hrest].
  apply andb_true_iff in Hx. destruct Hx as [Hh Hb].
  apply negb_true_iff in Hh, Hb.
  cbn [parse_lines].
  assert (Hstep : parse_line (Some label, mk_sections o d e l a) x
                  = Ok (Some label, mk_sections o d e l a)).
  { destruct Hlabel as [-> | [-> | ->]].
    - exact (parse_line_plain_list (Some ENABLES) (mk_sections o d e l a) x
               ENABLES eq_refl eq_refl Hh e Hb eq_refl).
    - exact (parse_line_plain_list (Some LIMITATIONS) (mk_sections o d e l a)
               x LIMITATIONS eq_refl eq_refl Hh l Hb eq_refl).
    - exact (parse_line_plain_list (Some ACTIONS) (mk_sections o d e l a) x
               ACTIONS eq_refl eq_refl Hh a Hb eq_refl). }
  rewrite Hstep. cbn [rbind]. apply IH, Hrest.
Qed.

Lemma list_section_ignores_plain_lines_witness :
  parse_lines (Some LIMITATIONS, mk_sections [] [] [] [lit "No costs"] [])
    [lit "Note: see above"; lit "and so on"]
  = Ok (Some LIMITATIONS, mk_sections [] [] [] [lit "No costs"] []).
Proof.
  apply list_section_ignores_plain_lines; [right; left; reflexivity|].
  reflexivity.
Defined.

(** X6. Every entry of the three list sections of a parse result is free
    of whitespace at both ends. *)
Theorem parsed_entries_trimmed (raw : str) o d e l a :
  parse raw = Ok (mk_sections o d e l a) ->
  forallb trimmed (e ++ l ++ a) = true.
Proof.
  unfold parse. intros H.
  destruct (parse_lines_cases (split NL raw) [] [] [] [] [] None I)
    as [(c & o2 & d2 & e2 & l2 & a2 & E & _ & _ & T)
       | (pre & line & post & label & dct & _ & _ & _ & _ & R)].
  - unfold sections_init in H. rewrite E in H. cbn [rbind snd app] in H.
    injection H as <- <- <- <- <-. exact T.
  - unfold sections_init in H. rewrite R in H. discriminate.
Qed.

Lemma parsed_entries_trimmed_witness :
  forallb trimmed ([lit "Sales trends"] ++ [] ++ [lit "Bundle"]) = true.
Proof.
  apply (parsed_entries_trimmed
           (lit "WHAT THIS DATA ENABLES:" ++ [NL] ++ lit "-   Sales trends  "
            ++ [NL] ++ lit "PROFIT IMPROVEMENT ACTIONS:" ++ [NL]
            ++ lit "* Bundle *")
           [] []).
  reflexivity.
Defined.


(** ** More on the text normaliser *)

(** X7. The texts [clean] leaves as they are, are exactly those with no
    two consecutive line breaks and no whitespace at either end. *)
Theorem clean_fixed_points (s : str) :
  clean s = s <->
  has_blank_run s = false /\ first_is_space s = false /\
  last_is_space s = false.
Proof.
  split.
  - intros H. rewrite <- H. split; [apply clean_no_blank_run|].
    split.
    + exact (strip_by_first is_space (re_sub_newlines s)).
    + exact (strip_by_last is_space (re_sub_newlines s)).
  - intros (H1 & H2 & H3). unfold clean, strip.
    rewrite (re_sub_newlines_id _ H1). apply strip_by_id; assumption.
Qed.


Lemma is_nl_is_space (c : N) : is_nl c = true -> is_space c = true.
Proof. unfold is_nl. rewrite N.eqb_eq. intros ->. reflexivity. Qed.

Lemma visible_app (a b : str) : visible (a ++ b) = visible a ++ visible b.
Proof. apply filter_app. Qed.

Lemma visible_all_space (a : str) :
  forallb is_space a = true -> visible a = [].
Proof.
  induction a as [|c a IH]; [reflexivity|].
  cbn [forallb]. intros H. apply andb_true_iff in H. destruct H as [Hc Ha].
  unfold visible. cbn [filter]. rewrite Hc. cbn [negb]. apply IH, Ha.
Qed.

Lemma visible_skip_run (k : nat) (t : str) :
  k <= nl_run t -> visible (skipn k t) = visible t.
Proof.
  revert t. induction k as [|k IH]; intros t H; [reflexivity|].
  destruct t as [|c t]; [reflexivity|].
  cbn [nl_run] in H. destruct (is_nl c) eqn:Hc; [|lia].
  cbn [skipn]. rewrite IH by lia.
  unfold visible. cbn [filter]. rewrite (is_nl_is_space _ Hc). reflexivity.
Qed.

Lemma visible_re_sub_newlines (s : str) :
  visible (re_sub_newlines s) = visible s.
Proof.
  remember (length s) as n eqn:Hn.
  revert s Hn. induction n as [n IH] using lt_wf_ind. intros s Hn.
  destruct s as [|c t]; [reflexivity|].
  rewrite re_sub_newlines_cons.
  destruct (2 <=? nl_run (c :: t)) eqn:E.
  - apply Nat.leb_le in E. cbn [nl_run] in E.
    destruct (is_nl c) eqn:Hc; [|lia].
    cbn [nl_run]. rewrite Hc.
    replace (S (nl_run t) - 1) with (nl_run t) by lia.
    unfold visible. cbn [filter].
    rewrite (is_nl_is_space _ Hc).
    change (negb (is_space NL)) with false. cbn [negb].
    fold (visible (re_sub_newlines (skipn (nl_run t) t))).
    fold (visible t).
    rewrite (IH (length (skipn (nl_run t) t))); [| |reflexivity].
    + apply visible_skip_run. lia.
    + subst n. cbn [length]. pose proof (skipn_length_le (nl_run t) t). lia.
  - unfold visible. cbn [filter].
    fold (visible (re_sub_newlines t)). fold (visible t).
    rewrite (IH (length t)); [reflexivity | subst n; cbn; lia | reflexivity].
Qed.

(** X8. Normalising removes whitespace only: the characters that are not
    whitespace are kept, all of them and in their order. *)
Theorem clean_keeps_visible_text (s : str) :
  visible (clean s) = visible s.
Proof.
  rewrite <- (visible_re_sub_newlines s). unfold clean, strip.
  destruct (strip_by_infix is_space (re_sub_newlines s))
    as (a & b & H & Ha & Hb).
  rewrite H at 2. rewrite !visible_app.
  rewrite (visible_all_space _ Ha), (visible_all_space _ Hb), app_nil_r.
  reflexivity.
Qed.


(** ** More on the statistics *)

Lemma count_true_cons (b : bool) (l : list bool) :
  count_true (b :: l) = Nat.b2n b + count_true l.
Proof. unfold count_true. cbn [filter]. destruct b; reflexivity. Qed.

Lemma list_sum_map_add {A} (f g : A -> nat) (l : list A) :
  list_sum (map (fun j => f j + g j) l)
  = list_sum (map f l) + list_sum (map g l).
Proof.
  unfold list_sum.
  induction l as [|x l IH]; [reflexivity|]. cbn [map fold_right].
  rewrite IH. lia.
Qed.

(** The missing cells of one row, counted by position. *)
Lemma null_by_position (r : list cell) :
  list_sum (map (fun j => Nat.b2n (is_null (nth j r None)))
                (seq 0 (length r)))
  = count_true (map is_null r).
Proof.
  induction r as [|c r IH]; [reflexivity|].
  cbn [length seq map nth]. rewrite count_true_cons.
  rewrite <- seq_shift, map_map. cbn [nth].
  change (list_sum (?x :: ?l)) with (x + list_sum l).
  rewrite IH. reflexivity.
Qed.

Lemma missing_count_rows (cols : list column) (rows : list (list cell)) :
  forallb (fun r => length r =? length cols) rows = true ->
  missing_count {| df_columns := cols; df_rows := rows |} = null_cells rows.
Proof.
  unfold missing_count, isnull_sum, null_cells. cbn [df_rows df_columns].
  induction rows as [|r rows IH]; intros H.
  - clear H. cbn [map]. generalize (seq 0 (length cols)). intros idx.
    induction idx as [|j idx IHi]; [reflexivity | exact IHi].
  - cbn [forallb] in H. apply andb_true_iff in H. destruct H as [Hr Hrows].
    apply Nat.eqb_eq in Hr.
    change (list_sum (map (fun r0 => count_true (map is_null r0)) (r :: rows)))
      with (count_true (map is_null r)
            + list_sum (map (fun r0 => count_true (map is_null r0)) rows)).
    rewrite <- (IH Hrows), <- null_by_position, Hr.
    rewrite <- list_sum_map_add. f_equal. apply map_ext. intros j.
    apply count_true_cons.
Qed.

(** X9. When every row has one cell per column, the missing count of the
    summary is the number of missing cells of the table. *)
Theorem missing_count_is_null_cells (df : DataFrame) :
  rectangular df = true ->
  st_missing (summarize df) = null_cells (df_rows df).
Proof.
  destruct df as [cols rows]. unfold rectangular. cbn [df_rows df_columns].
  intros H. unfold summarize. cbn [st_missing].
  apply missing_count_rows, H.
Qed.

Lemma missing_count_is_null_cells_witness :
  st_missing (summarize df100) = null_cells (df_rows df100).
Proof.
  apply missing_count_is_null_cells. vm_compute. reflexivity.
Defined.

Lemma scalar_eqb_eq (x y : scalar) : scalar_eqb x y = true <-> x = y.
Proof.
  destruct x, y; cbn [scalar_eqb]; try (split; discriminate).
  - rewrite Z.eqb_eq. split; [intros ->; reflexivity | intros [= ->]; reflexivity].
  - rewrite andb_true_iff, !Z.eqb_eq.
    split; [intros [-> ->]; reflexivity | intros [= -> ->]; auto].
  - rewrite Bool.eqb_true_iff.
    split; [intros ->; reflexivity | intros [= ->]; reflexivity].
  - rewrite str_eqb_eq.
    split; [intros ->; reflexivity | intros [= ->]; reflexivity].
Qed.

Lemma cell_eqb_eq (x y : cell) : cell_eqb x y = true <-> x = y.
Proof.
  destruct x as [x|], y as [y|]; cbn [cell_eqb]; try (split; discriminate).
  - rewrite scalar_eqb_eq.
    split; [intros ->; reflexivity | intros [= ->]; reflexivity].
  - tauto.
Qed.

Lemma row_eqb_eq (x y : list cell) : row_eqb x y = true <-> x = y.
Proof.
  revert y. induction x as [|a x IH]; intros [|b y]; cbn [row_eqb];
    try (split; discriminate); [tauto|].
  rewrite andb_true_iff, cell_eqb_eq, IH.
  split; [intros [-> ->]; reflexivity | intros [= -> ->]; auto].
Qed.

Lemma existsb_row_eqb (r : list cell) (seen : list (list cell)) :
  existsb (row_eqb r) seen = true <-> In r seen.
Proof.
  rewrite existsb_exists. split.
  - intros (x & Hx & E). apply row_eqb_eq in E. subst. exact Hx.
  - intros H. exists r. split; [exact H | apply row_eqb_refl].
Qed.

Lemma no_duplicate_marks (rows seen : list (list cell)) :
  count_true (duplicated_from seen rows) = 0 <->
  NoDup rows /\ forall r, In r rows -> ~ In r seen.
Proof.
  revert seen. induction rows as [|r rest IH]; intros seen.
  - cbn. split; [intros _; split; [constructor | contradiction] | reflexivity].
  - cbn [duplicated_from]. rewrite count_true_cons. split.
    + intros H.
      destruct (existsb (row_eqb r) seen) eqn:E; [cbn in H; lia|].
      cbn [Nat.b2n] in H. apply IH in H. destruct H as [Hnd Hout].
      assert (Hr : ~ In r seen).
      { intros Hin. apply existsb_row_eqb in Hin. congruence. }
      split.
      * constructor; [|exact Hnd].
        intros Hin. apply (Hout r Hin). left. reflexivity.
      * intros x [<- | Hx]; [exact Hr|].
        intros Hs. apply (Hout x Hx). right. exact Hs.
    + intros [Hnd Hout]. inversion Hnd as [|? ? Hnotin Hnd']; subst.
      destruct (existsb (row_eqb r) seen) eqn:E.
      * apply existsb_row_eqb in E. exfalso.
        apply (Hout r); [left; reflexivity | exact E].
      * cbn [Nat.b2n]. apply IH. split; [exact Hnd'|].
        intros x Hx [<- | Hs]; [contradiction|].
        apply (Hout x); [right; exact Hx | exact Hs].
Qed.

Lemma count_true_le (l : list bool) : count_true l <= length l.
Proof. unfold count_true. apply filter_length_le. Qed.

Lemma duplicated_from_length (rows seen : list (list cell)) :
  length (duplicated_from seen rows) = length rows.
Proof.
  revert seen. induction rows as [|r rest IH]; intros seen; [reflexivity|].
  cbn [duplicated_from length]. rewrite IH. reflexivity.
Qed.

(** X10. The duplicate count is zero exactly when the rows are pairwise
    different, and it never counts the first row: it is at most the
    number of rows minus one. *)
Theorem dup_count_bounds (df : DataFrame) :
  (st_dup (summarize df) = 0 <-> NoDup (df_rows df)) /\
  st_dup (summarize df) <= length (df_rows df) - 1.
Proof.
  unfold summarize, dup_count, duplicated. cbn [st_dup]. split.
  - rewrite no_duplicate_marks. split; [tauto|].
    intros H. split; [exact H | intros r _ []].
  - destruct (df_rows df) as [|r rest]; [reflexivity|].
    cbn [duplicated_from existsb length]. rewrite count_true_cons.
    cbn [Nat.b2n].
    pose proof (count_true_le (duplicated_from [r] rest)) as Hle.
    rewrite duplicated_from_length in Hle. lia.
Qed.

(** ** More on the revenue column and the charts *)

Lemma filter_last_split {A} (p : A -> bool) (l : list A) :
  forall ys x,
  filter p l = ys ++ [x] ->
  exists pre post,
    l = pre ++ x :: post /\ p x = true /\
    forallb (fun y => negb (p y)) post = true.
Proof.
  induction l as [|a l IH]; intros ys x H.
  - destruct ys; discriminate.
  - cbn [filter] in H. destruct (p a) eqn:Pa.
    + destruct ys as [|y ys].
      * cbn [app] in H. injection H as -> Hnil.
        exists [], l. split; [reflexivity|]. split; [exact Pa|].
        apply forallb_forall. intros z Hz. apply negb_true_iff.
        destruct (p z) eqn:Pz; [|reflexivity].
        assert (Hin : In z (filter p l)) by (apply filter_In; auto).
        rewrite Hnil in Hin. contradiction.
      * cbn [app] in H. injection H as -> H.
        destruct (IH ys x H) as (pre & post & -> & Px & Hpost).
        exists (y :: pre), post. auto.
    + destruct (IH ys x H) as (pre & post & -> & Px & Hpost).
      exists (a :: pre), post. auto.
Qed.

(** X11. The revenue column cannot be resolved exactly when the table has
    neither a ["total_price"] column nor a numeric column, and the error
    is then [IndexError]. *)
Theorem revenue_col_failure_iff (df : DataFrame) :
  (resolve_revenue_col df = Raise IndexError <->
   in_columns TOTAL_PRICE df = false /\ numeric_columns df = []) /\
  (forall e, resolve_revenue_col df = Raise e -> e = IndexError).
Proof.
  unfold resolve_revenue_col, index_last.
  destruct (in_columns TOTAL_PRICE df).
  - split; [split; [discriminate | intros [H _]; discriminate]
           | discriminate].
  - destruct (numeric_columns df) as [|n ns] eqn:E.
    + cbn [rev]. split; [tauto | intros e [= <-]; reflexivity].
    + destruct (rev (n :: ns)) as [|x xs] eqn:R.
      { apply (f_equal (@length str)) in R. rewrite length_rev in R.
        discriminate. }
      split; [split; [discriminate | intros [_ H]; discriminate]
             | discriminate].
Qed.

(** X12. A resolved revenue column is ["total_price"], or else the table
    has no such column and it is the name of the right-most column of
    numeric type. *)
Theorem revenue_col_is_last_numeric (df : DataFrame) (c : str) :
  resolve_revenue_col df = Ok c ->
  (in_columns TOTAL_PRICE df = true /\ c = TOTAL_PRICE) \/
  (in_columns TOTAL_PRICE df = false /\
   exists pre col post,
     df_columns df = pre ++ col :: post /\
     col_name col = c /\
     is_number (col_dtype col) = true /\
     forallb (fun x => negb (is_number (col_dtype x))) post = true).
Proof.
  unfold resolve_revenue_col, index_last, numeric_columns.
  destruct (in_columns TOTAL_PRICE df); [intros [= <-]; auto|].
  intros H. right. split; [reflexivity|].
  destruct (rev (map col_name
              (filter (fun x => is_number (col_dtype x)) (df_columns df))))
    as [|x xs] eqn:R; [discriminate|].
  injection H as ->.
  apply (f_equal (@rev str)) in R. rewrite rev_involutive in R.
  cbn [rev] in R. apply map_eq_app in R.
  destruct R as (fs & last1 & Hf & _ & Hlast).
  destruct last1 as [|col [|? ?]]; try discriminate.
  cbn [map] in Hlast. injection Hlast as Hname.
  destruct (filter_last_split _ _ _ _ Hf) as (pre & post & Hcols & Hnum & Hpost).
  exists pre, col, post. auto.
Qed.

Lemma revenue_col_is_last_numeric_witness :
  (in_columns TOTAL_PRICE
     {| df_columns := [ {| col_name := lit "qty"; col_dtype := Int64 |};
                        {| col_name := lit "price"; col_dtype := Float64 |};
                        {| col_name := lit "note"; col_dtype := ObjectT |} ];
        df_rows := [] |} = true /\ lit "price" = TOTAL_PRICE) \/
  (in_columns TOTAL_PRICE
     {| df_columns := [ {| col_name := lit "qty"; col_dtype := Int64 |};
                        {| col_name := lit "price"; col_dtype := Float64 |};
                        {| col_name := lit "note"; col_dtype := ObjectT |} ];
        df_rows := [] |} = false /\
   exists pre col post,
     [ {| col_name := lit "qty"; col_dtype := Int64 |};
       {| col_name := lit "price"; col_dtype := Float64 |};
       {| col_name := lit "note"; col_dtype := ObjectT |} ]
     = pre ++ col :: post /\
     col_name col = lit "price" /\
     is_number (col_dtype col) = true /\
     forallb (fun x => negb (is_number (col_dtype x))) post = true).
Proof.
  apply (revenue_col_is_last_numeric
           {| df_columns := [ {| col_name := lit "qty"; col_dtype := Int64 |};
                              {| col_name := lit "price"; col_dtype := Float64 |};
                              {| col_name := lit "note"; col_dtype := ObjectT |} ];
              df_rows := [] |}).
  reflexivity.
Defined.

(** X13. When the charts are built, there is one per recognised column
    name, ["pizza_category"] and ["pizza_size"], whatever the rows hold:
    none, one or two; and the revenue column was resolved even when no
    chart uses it. *)
Theorem charts_follow_column_names (ext : externals) (df : DataFrame)
    (charts : list str) :
  build_charts ext df = Ok charts ->
  length charts
  = Nat.b2n (in_columns PIZZA_CATEGORY df) + Nat.b2n (in_columns PIZZA_SIZE df)
  /\ exists rc, resolve_revenue_col df = Ok rc.
Proof.
  unfold build_charts.
  destruct (resolve_revenue_col df) as [rc|]; [|discriminate].
  cbn [rbind]. intros H. split; [|exists rc; reflexivity].
  destruct (in_columns PIZZA_CATEGORY df);
    [destruct (bar_chart ext df rc); [|discriminate]|];
    destruct (in_columns PIZZA_SIZE df);
    try (destruct (pie_chart ext df rc); [|discriminate]);
    cbn [rbind] in H; injection H as <-; reflexivity.
Qed.

Lemma charts_follow_column_names_witness :
  length [lit "<div>pie</div>"]
  = Nat.b2n (in_columns PIZZA_CATEGORY df100)
    + Nat.b2n (in_columns PIZZA_SIZE df100)
  /\ exists rc, resolve_revenue_col df100 = Ok rc.
Proof.
  apply (charts_follow_column_names sample_ext). reflexivity.
Defined.


(** ** More on the export block and the whole run *)

(** X14. The export block, from any state of the file system: when the
    engine succeeds its bytes are offered for download and the files are
    as before; otherwise the block raises [OSError] and one file that did
    not exist before is left behind, the temporary file, holding whatever
    the engine wrote. *)
Theorem export_block_outcome (ext : externals) (html : str) (w : world) :
  file_exists (files w) (fresh_path (files w)) = false /\
  export_block ext (Ok html) w
  = if engine_succeeds (wkhtmltopdf ext html)
    then
      (Ok html,
       {| server := server w; files := files w;
          trace := trace w ++ [Download (written (wkhtmltopdf ext html))] |})
    else
      (Raise OSError,
       {| server := server w;
          files := (fresh_path (files w), written (wkhtmltopdf ext html))
                   :: files w;
          trace := trace w |}).
Proof.
  split; [apply file_exists_fresh|].
  destruct (engine_succeeds (wkhtmltopdf ext html)) eqn:E.
  - apply export_block_success, E.
  - apply export_block_failure, E.
Qed.

Lemma export_block_outcome_partial_write :
  export_block partial_engine_ext (Ok (lit "<html></html>")) sample_world
  = (Raise OSError,
     {| server := server sample_world;
        files := [(1%N, [Byte.x25; Byte.x50])];
        trace := [] |}).
Proof.
  rewrite (proj2 (export_block_outcome partial_engine_ext
                    (lit "<html></html>") sample_world)).
  reflexivity.
Defined.

Lemma llama_server_down (prompt : str) (fs : list (path * bytes))
    (tr : list event) :
  llama prompt {| server := []; files := fs; trace := tr |}
  = (Ok (PStr []),
     {| server := []; files := fs; trace := tr ++ repeat (Post prompt) 3 |}).
Proof.
  unfold llama. cbn. rewrite <- !app_assoc. reflexivity.
Qed.

(** X15. With the model server down the run still delivers a report: six
    requests are made, three per prompt, the narrative sections and the
    insights are empty, and the report is exported. *)
Theorem generate_with_server_down (ext : externals) (df : DataFrame)
    (charts : list str) (data : bytes) (fs : list (path * bytes))
    (tr : list event) :
  build_charts ext df = Ok charts ->
  engine_succeeds
    (wkhtmltopdf ext
       (template_render (now ext) [] [] [] [] []
          (length (df_rows df)) (length (df_columns df))
          (missing_count df) (dup_count df) charts [])) = true ->
  written
    (wkhtmltopdf ext
       (template_render (now ext) [] [] [] [] []
          (length (df_rows df)) (length (df_columns df))
          (missing_count df) (dup_count df) charts [])) = data ->
  generate ext df {| server := []; files := fs; trace := tr |}
  = (Ok (template_render (now ext) [] [] [] [] []
           (length (df_rows df)) (length (df_columns df))
           (missing_count df) (dup_count df) charts []),
     {| server := []; files := fs;
        trace := tr ++ repeat (Post (understanding_prompt ext df)) 3
                    ++ repeat (Post (insight_prompt ext df)) 3
                    ++ [Download data] |}).
Proof.
  intros Hcharts Hpdf Hdata. unfold generate, bind.
  rewrite llama_server_down. unfold lift at 1. cbn [clean_value].
  change (clean []) with (@nil N).
  unfold lift at 1. change (parse []) with (Ok sections_init).
  unfold lift at 1. rewrite Hcharts.
  rewrite llama_server_down. unfold lift at 1.
  change (insights_of (PStr [])) with (@Ok (list str) []).
  cbv iota beta.
  change (render_report ext df sections_init charts [])
    with (@Ok str (template_render (now ext) [] [] [] [] []
           (length (df_rows df)) (length (df_columns df))
           (missing_count df) (dup_count df) charts [])).
  rewrite (export_block_success ext _ _ Hpdf), Hdata.
  cbn [server files trace]. rewrite <- !app_assoc. reflexivity.
Qed.

Lemma generate_with_server_down_witness :
  exists html w',
    generate sample_ext df100 {| server := []; files := []; trace := [] |}
    = (Ok html, w') /\ posts (trace w') = 6.
Proof.
  eexists. eexists. split.
  - apply (generate_with_server_down sample_ext df100
             [lit "<div>pie</div>"]
             [Byte.x25; Byte.x50; Byte.x44; Byte.x46]); reflexivity.
  - reflexivity.
Defined.

(** X16. A reply whose ["response"] field is not a string stops the run:
    [llama] hands the value on as it is and [clean] raises [TypeError],
    after one request. *)
Theorem generate_non_string_response (ext : externals) (df : DataFrame)
    (d : list (str * pyval)) (v : pyval) (rest : list reply)
    (fs : list (path * bytes)) (tr : list event) :
  lookup d RESPONSE = Some v ->
  (forall s, v <> PStr s) ->
  generate ext df
    {| server := Responds (Some (PDict d)) :: rest; files := fs; trace := tr |}
  = (Raise TypeError,
     {| server := rest; files := fs;
        trace := tr ++ [Post (understanding_prompt ext df)] |}).
Proof.
  intros Hd Hv. unfold generate, bind, llama.
  cbn [seq llama_loop]. unfold try_except, bind, requests_post, lift.
  cbn [server files trace response_json py_get tl]. rewrite Hd.
  destruct v; try reflexivity.
  exfalso. exact (Hv _ eq_refl).
Qed.

Lemma generate_non_string_response_witness :
  generate sample_ext df100
    {| server := [Responds (Some (PDict [(RESPONSE, PNone)]))];
       files := []; trace := [] |}
  = (Raise TypeError,
     {| server := []; files := [];
        trace := [] ++ [Post (understanding_prompt sample_ext df100)] |}).
Proof.
  apply (generate_non_string_response sample_ext df100
           [(RESPONSE, PNone)] PNone).
  - reflexivity.
  - intros s. discriminate.
Defined.


(** ** The insights *)

Lemma strip_by_length_le (p : N -> bool) (s : str) :
  length (strip_by p s) <= length s.
Proof.
  destruct (strip_by_infix p s) as (a & b & H & _).
  rewrite H at 2. rewrite !length_app. lia.
Qed.

Lemma split_In_length (sep : N) (s x : str) :
  In x (split sep s) -> length x <= length s.
Proof.
  revert x. induction s as [|c t IH]; intros x.
  - cbn. intros [<- | []]. reflexivity.
  - cbn [split]. destruct (N.eqb c sep).
    + intros [<- | H]; [cbn; lia|]. specialize (IH x H). cbn. lia.
    + destruct (split sep t) as [|w ws] eqn:E.
      * intros [<- | []]. cbn. lia.
      * intros [<- | H].
        -- specialize (IH w (or_introl eq_refl)). cbn. lia.
        -- specialize (IH x (or_intror H)). cbn. lia.
Qed.

Lemma filter_none {A} (f : A -> bool) (l : list A) :
  (forall x, In x l -> f x = false) -> filter f l = [].
Proof.
  induction l as [|a l IH]; intros H; [reflexivity|].
  cbn [filter]. rewrite (H a (or_introl eq_refl)). apply IH.
  intros x Hx. apply H. right. exact Hx.
Qed.

(** X17. An answer of at most 20 characters, such as the empty text of a
    client that gave up, yields no insight. *)
Theorem insights_of_short_answer (s : str) :
  length s <= 20 -> insights_of (PStr s) = Ok [].
Proof.
  intros H. cbn [insights_of]. rewrite filter_none; [reflexivity|].
  intros x Hx. apply Nat.ltb_ge.
  pose proof (split_In_length _ _ _ Hx).
  pose proof (strip_by_length_le is_space x). unfold strip. lia.
Qed.

Lemma insights_of_short_answer_witness :
  insights_of (PStr (lit "- too short")) = Ok [].
Proof.
  apply insights_of_short_answer. vm_compute. lia.
Defined.

(** X18. Every insight comes from a line of the answer that has more than
    20 characters once stripped, in the order of the lines, and carries no
    dash, bullet or space at either end. *)
Theorem insights_of_lines (s : str) (l : list str) :
  insights_of (PStr s) = Ok l ->
  length l <= length (split NL s) /\
  forall i, In i l ->
    (exists line, In line (split NL s) /\ 20 < length (strip line) /\
                  i = strip_chars [DASH; BULLET; SPACE] line) /\
    first_sat (fun c => mem c [DASH; BULLET; SPACE]) i = false /\
    first_sat (fun c => mem c [DASH; BULLET; SPACE]) (rev i) = false.
Proof.
  cbn [insights_of]. intros [= <-]. split.
  - rewrite length_map. apply filter_length_le.
  - intros i Hi. apply in_map_iff in Hi. destruct Hi as (line & <- & Hline).
    apply filter_In in Hline. destruct Hline as [Hin Hlen].
    apply Nat.ltb_lt in Hlen. split; [exists line; auto|].
    unfold strip_chars. split; [apply strip_by_first | apply strip_by_last].
Qed.

Lemma insights_of_lines_witness :
  length [lit "Large pizzas bring most of the revenue."]
  <= length (split NL sample_insights) /\
  forall i, In i [lit "Large pizzas bring most of the revenue."] ->
    (exists line, In line (split NL sample_insights) /\
                  20 < length (strip line) /\
                  i = strip_chars [DASH; BULLET; SPACE] line) /\
    first_sat (fun c => mem c [DASH; BULLET; SPACE]) i = false /\
    first_sat (fun c => mem c [DASH; BULLET; SPACE]) (rev i) = false.
Proof.
  apply (insights_of_lines sample_insights). reflexivity.
Defined.

(** ** What a run does to the world *)

Lemma posts_app (a b : list event) : posts (a ++ b) = posts a + posts b.
Proof. unfold posts. rewrite filter_app, length_app. reflexivity. Qed.

Lemma posts_repeat (p : str) (n : nat) : posts (repeat (Post p) n) = n.
Proof.
  unfold posts. induction n as [|n IH]; [reflexivity|].
  cbn [repeat filter length]. rewrite IH. reflexivity.
Qed.

Lemma parse_shape (raw : str) (secs : dict) :
  parse raw = Ok secs -> exists o d e l a, secs = mk_sections o d e l a.
Proof.
  unfold parse. intros H.
  destruct (parse_lines (None, sections_init) (split NL raw))
    as [st|] eqn:E; [|discriminate].
  destruct (parse_lines_extends _ _ _ _ _ _ _ _ E)
    as (c & o & d & e & l & a & -> & _ & _).
  cbn [rbind snd] in H. injection H as <-. eauto 6.
Qed.

(** X19. A run makes at most six requests, and it leaves the files as it
    found them, unless the PDF export fails: then it ends in [OSError] and
    leaves the one temporary file it created, holding whatever the engine
    wrote. *)
Theorem generate_resources (ext : externals) (df : DataFrame) (w : world) :
  exists n,
    n <= 6 /\
    posts (trace (snd (generate ext df w))) = posts (trace w) + n /\
    (files (snd (generate ext df w)) = files w \/
     (fst (generate ext df w) = Raise OSError /\
      exists data,
        files (snd (generate ext df w))
        = (fresh_path (files w), data) :: files w)).
Proof.
  destruct (llama_loop_spec (seq 0 3) (understanding_prompt ext df) w)
    as (n1 & v1 & Hn1 & Hrun1 & _).
  cbn [length seq] in Hn1.
  destruct (generate ext df w) as [r w'] eqn:G. cbn [fst snd].
  unfold generate, bind in G. unfold llama at 1 in G. rewrite Hrun1 in G.
  assert (Hstop1 : forall e : exn,
            (@Raise str e, after_posts (understanding_prompt ext df) w n1)
            = (r, w') ->
            exists n, n <= 6 /\ posts (trace w') = posts (trace w) + n /\
              (files w' = files w \/
               (r = Raise OSError /\
                exists data,
                  files w' = (fresh_path (files w), data) :: files w))).
  { intros e [= <- <-]. exists n1. cbn [after_posts trace files].
    rewrite posts_app, posts_repeat. split; [lia | auto]. }
  unfold lift at 1 in G. destruct (clean_value v1) as [raw|e1];
    [|exact (Hstop1 _ G)].
  unfold lift at 1 in G. destruct (parse raw) as [secs|e2] eqn:Hparse;
    [|exact (Hstop1 _ G)].
  unfold lift at 1 in G. destruct (build_charts ext df) as [charts|e3];
    [|exact (Hstop1 _ G)].
  destruct (llama_loop_spec (seq 0 3) (insight_prompt ext df)
              (after_posts (understanding_prompt ext df) w n1))
    as (n2 & v2 & Hn2 & Hrun2 & _).
  cbn [length seq] in Hn2.
  unfold llama at 1 in G. rewrite Hrun2 in G.
  unfold lift at 1 in G. destruct (insights_of v2) as [insights|e4].
  2:{ injection G as <- <-. exists (n1 + n2). cbn [after_posts trace files].
      rewrite !posts_app, !posts_repeat. split; [lia|]. split; [lia | auto]. }
  destruct (parse_shape _ _ Hparse) as (o & d & e & l & a & ->).
  change (render_report ext df (mk_sections o d e l a) charts insights)
    with (@Ok str (template_render (now ext) o d e l a
            (length (df_rows df)) (length (df_columns df))
            (missing_count df) (dup_count df) charts insights)) in G.
  exists (n1 + n2).
  destruct (engine_succeeds (wkhtmltopdf ext
              (template_render (now ext) o d e l a
                 (length (df_rows df)) (length (df_columns df))
                 (missing_count df) (dup_count df) charts insights)))
    eqn:Hpdf.
  - rewrite (export_block_success ext _ _ Hpdf) in G.
    injection G as <- <-. cbn [after_posts trace files server].
    rewrite !posts_app, !posts_repeat.
    split; [lia|]. split; [cbn; lia | auto].
  - rewrite (export_block_failure ext _ _ Hpdf) in G.
    injection G as <- <-. unfold set_files.
    cbn [after_posts trace files server].
    rewrite !posts_app, !posts_repeat.
    split; [lia|]. split; [lia | eauto].
Qed.

(** X20. The loop never shortens or replaces what a section holds: from
    any state of the five values, each value after the loop is the value
    before it with something appended (a header seen again does not reset
    its section). *)
Theorem parse_lines_only_extends o d e l a (cur cur' : option str)
    (lines : list str) (secs' : dict) :
  parse_lines (cur, mk_sections o d e l a) lines = Ok (cur', secs') ->
  exists o2 d2 e2 l2 a2,
    secs' = mk_sections (o ++ o2) (d ++ d2) (e ++ e2) (l ++ l2) (a ++ a2).
Proof.
  intros H.
  destruct (parse_lines_extends _ _ _ _ _ _ _ _ H)
    as (c & o2 & d2 & e2 & l2 & a2 & E & _ & _).
  injection E as _ ->. eauto 6.
Qed.

Lemma parse_lines_only_extends_witness :
  exists o2 d2 e2 l2 a2,
    mk_sections (lit " Old text. More text.") [] [lit "kept"] [] []
    = mk_sections (lit " Old text." ++ o2) ([] ++ d2) ([lit "kept"] ++ e2)
        ([] ++ l2) ([] ++ a2).
Proof.
  apply (parse_lines_only_extends (lit " Old text.") [] [lit "kept"] [] []
           (Some ENABLES) (Some OVERVIEW)
           [lit "OVERVIEW:"; lit "More text."]).
  reflexivity.
Defined.
